(** * adbutils: device discovery, device resolution and the asyncio bridge

    A shallow embedding of [adbutils/__init__.py]: the class [AdbClient]
    (methods [shell], [list], [iter_device], [device_list], [device]) and the
    class [AsyncAdbController], together with the properties of these methods
    that the specification of the package states.

    Python [str] values are sequences of Unicode code points; a dictionary is
    a finite map; a method that touches the daemon, the process environment
    or raises is a computation in a state-and-exception monad over an explicit
    world. *)

From Stdlib Require Import ZArith NArith Ascii String.
From stdpp Require Import base option list gmap pretty.

Set Default Proof Using "Type".
Local Open Scope N_scope.

(** ** Python strings *)

(** A code point, and a Python [str]. *)
Abbreviation char := N (only parsing).
Abbreviation str := (list N) (only parsing).

(** A string literal of the Python source, as code points. *)
Definition lit (s : string) : str :=
  N_of_ascii <$> list_ascii_of_string s.

Module Py.

(** [str.isspace] on one character, the test [str.split()] uses to find
    its separators (CPython's [_PyUnicode_IsWhitespace]). *)
Definition isspace (c : char) : bool :=
  ((0x09 <=? c) && (c <=? 0x0D))
  || ((0x1C <=? c) && (c <=? 0x20))
  || (c =? 0x85) || (c =? 0xA0) || (c =? 0x1680)
  || ((0x2000 <=? c) && (c <=? 0x200A))
  || (c =? 0x2028) || (c =? 0x2029) || (c =? 0x202F)
  || (c =? 0x205F) || (c =? 0x3000).

(** The line boundaries of [str.splitlines]
    (CPython's [_PyUnicode_IsLinebreak]). *)
Definition islinebreak (c : char) : bool :=
  ((0x0A <=? c) && (c <=? 0x0D))
  || ((0x1C <=? c) && (c <=? 0x1E))
  || (c =? 0x85) || (c =? 0x2028) || (c =? 0x2029).

Definition CR : char := 0x0D.
Definition LF : char := 0x0A.

(** Put a character in front of the first piece of a split. *)
Definition push_front (c : char) (pieces : list str) : list str :=
  match pieces with
  | [] => [[c]]
  | p :: ps => (c :: p) :: ps
  end.

(** [s.splitlines()]: cut at every line boundary, a carriage return
    followed by a line feed counting once; the boundaries are dropped and
    no empty last line is produced. [after_cr] tells that the previous
    character was a carriage return that ended a line. *)
Fixpoint splitlines_from (after_cr : bool) (s : str) : list str :=
  match s with
  | [] => []
  | c :: s' =>
      if after_cr && (c =? LF) then splitlines_from false s'
      else if islinebreak c then [] :: splitlines_from (c =? CR) s'
      else push_front c (splitlines_from false s')
  end.

Definition splitlines (s : str) : list str := splitlines_from false s.

(** [s.split()]: the maximal runs of characters that are not white space,
    from left to right. *)
Fixpoint split (s : str) : list str :=
  match s with
  | [] => []
  | c :: s' =>
      if isspace c then split s'
      else match s' with
           | [] => [[c]]
           | c' :: _ =>
               if isspace c' then [c] :: split s'
               else push_front c (split s')
           end
  end.

(** [s.split(sep)] for a separator of one character: always at least one
    piece, empty pieces kept. *)
Fixpoint split_on (sep : char) (s : str) : list str :=
  match s with
  | [] => [[]]
  | c :: s' =>
      if c =? sep then [] :: split_on sep s'
      else push_front c (split_on sep s')
  end.

End Py.

Definition COLON : char := 0x3A.

(** ** Exceptions and results *)

(** The exceptions the modelled code can raise. [AdbError] and [IndexError]
    are raised by the code of [__init__.py] itself (the latter by [kv[1]] on
    a list that is too short); the others come from the connection layer. *)
Inductive exn :=
  | AdbError (msg : str)
  | IndexError
  | OSError
  | FramingError
  | ProtocolError (reason : str).

(** What a call does: it returns a value or raises. *)
Inductive outcome (A : Type) :=
  | Return (a : A)
  | Raise (e : exn).
Arguments Return {A} a.
Arguments Raise {A} e.

#[export] Instance outcome_ret : MRet outcome := fun A a => Return a.
#[export] Instance outcome_bind : MBind outcome := fun A B f r =>
  match r with
  | Return a => f a
  | Raise e => Raise e
  end.
#[export] Instance outcome_fmap : FMap outcome := fun A B f r =>
  match r with
  | Return a => Return (f a)
  | Raise e => Raise e
  end.

(** [l[i]] on a Python list, for an index that is not negative. *)
Definition getitem {A} (l : list A) (i : nat) : outcome A :=
  match l !! i with
  | Some x => Return x
  | None => Raise IndexError
  end.

(** ** Records of the package *)

(** The client: the address of the daemon it talks to, as
    [AdbClient(host=..., port=..., socket_timeout=...)] is given it. *)
Record AdbClient := mkAdbClient {
  host : str;
  port : Z;
  socket_timeout : option Z;
}.

(** [AdbDeviceInfo(serial=..., state=..., tags=...)]. *)
Record AdbDeviceInfo := mkAdbDeviceInfo {
  serial : str;
  state : str;
  tags : gmap (list N) (list N);
}.

(** [AdbDevice(client, serial=None, transport_id=None)]: a handle on one
    device, naming it by a serial or by a transport id. *)
Record AdbDevice := mkAdbDevice {
  client : AdbClient;
  dev_serial : option str;
  dev_transport_id : option Z;
}.

#[export] Instance exn_eq_dec : EqDecision exn.
Proof. solve_decision. Defined.
#[export] Instance AdbClient_eq_dec : EqDecision AdbClient.
Proof. solve_decision. Defined.
#[export] Instance AdbDeviceInfo_eq_dec : EqDecision AdbDeviceInfo.
Proof. solve_decision. Defined.
#[export] Instance AdbDevice_eq_dec : EqDecision AdbDevice.
Proof. solve_decision. Defined.

(** ** Parsing a device listing: the loop of [AdbClient.list] *)

(** The dictionary comprehension [{kv[0]: kv[1] for kv in kvs}], filling [d]
    from left to right: a later entry replaces an earlier one with the same
    key, and a [kv] with fewer than two elements raises [IndexError]. *)
Fixpoint dict_comprehension (kvs : list (list str)) (d : gmap (list N) (list N))
  : outcome (gmap (list N) (list N)) :=
  match kvs with
  | [] => Return d
  | kv :: kvs' =>
      k ← getitem kv 0;
      v ← getitem kv 1;
      dict_comprehension kvs' (<[k := v]> d)
  end.

(** [{**d1, **d2}]: the entries of [d2] win. *)
Definition dict_merge (d1 d2 : gmap (list N) (list N)) : gmap (list N) (list N) :=
  d2 ∪ d1.

Definition num_required_fields : nat := 2.

(** One turn of the loop over the lines: [None] is [continue], [Some info]
    is the record appended to [infos]. *)
Definition list_line (extended : bool) (line : str) : outcome (option AdbDeviceInfo) :=
  let parts := Py.split line in
  let tags : gmap (list N) (list N) := ∅ in
  if (length parts <? num_required_fields)%nat then Return None
  else
    tags ← (if extended
            then dict_merge tags <$>
                 dict_comprehension
                   (Py.split_on COLON <$> drop num_required_fields parts) ∅
            else Return tags);
    serial ← getitem parts 0;
    state ← getitem parts 1;
    Return (Some (mkAdbDeviceInfo serial state tags)).

(** The loop [for line in output.splitlines(): ...], started with the
    records [infos] collected so far. *)
Fixpoint list_loop (extended : bool) (lines : list str) (infos : list AdbDeviceInfo)
  : outcome (list AdbDeviceInfo) :=
  match lines with
  | [] => Return infos
  | line :: lines' =>
      r ← list_line extended line;
      match r with
      | None => list_loop extended lines' infos
      | Some info => list_loop extended lines' (infos ++ [info])
      end
  end.

(** ** The world: the daemon, the sockets and the process environment *)

(** What the daemon does with a command sent on a connection. *)
Inductive reply :=
  | Hangup                      (* the command cannot be written *)
  | Garbled                     (* the status frame is malformed or cut short *)
  | Fail (reason : str)         (* status FAIL and its reason *)
  | Okay (block : option str).  (* status OKAY, then a block, or a broken frame *)

(** A socket of the client: the commands written on it, and whether it has
    been closed. *)
Record socket := mkSocket {
  sent : list str;
  closed : bool;
}.

(** [daemon n] is the behaviour of the daemon on the [n]-th connection made
    to it, [None] when it refuses that connection; [sockets] holds every
    socket the process has opened, oldest first. *)
Record world := mkWorld {
  environ : gmap (list N) (list N);
  daemon : nat → option (str → reply);
  sockets : list socket;
}.

Definition set_sockets (w : world) (ss : list socket) : world :=
  mkWorld (environ w) (daemon w) ss.

(** A call that may read and change the world, and may raise. *)
Definition M (A : Type) : Type := world → outcome A * world.

#[export] Instance M_ret : MRet M := fun A a w => (Return a, w).
#[export] Instance M_bind : MBind M := fun A B f m w =>
  match m w with
  | (Return a, w') => f a w'
  | (Raise e, w') => (Raise e, w')
  end.
#[export] Instance M_fmap : FMap M := fun A B f m w =>
  match m w with
  | (Return a, w') => (Return (f a), w')
  | (Raise e, w') => (Raise e, w')
  end.

Definition raise {A} (e : exn) : M A := fun w => (Raise e, w).

(** A computation that only returns or raises, run in a world. *)
Definition pure {A} (r : outcome A) : M A := fun w => (r, w).

(** [os.environ.get(name)]. *)
Definition os_environ_get (name : str) : M (option str) :=
  fun w => (Return (environ w !! name), w).

(** ** The connection layer *)

(** An [AdbConnection]: the index of its socket. *)
Definition AdbConnection : Type := nat.

Definition answer (w : world) (c : AdbConnection) : option reply :=
  f ← daemon w c;
  s ← sockets w !! c;
  cmd ← last (sent s);
  Some (f cmd).

(** Modelled from the spec: [BaseClient.make_connection] of adbutils/_adb.py,
    which is not among the sources. It "establishes a socket to the configured
    host/port"; a daemon that cannot be reached makes it raise, and then no
    socket is held. *)
Definition make_connection (self : AdbClient) : M AdbConnection :=
  fun w =>
    let c := length (sockets w) in
    match daemon w c with
    | None => (Raise OSError, w)
    | Some _ => (Return c, set_sockets w (sockets w ++ [mkSocket [] false]))
    end.

(** Modelled from the spec: [AdbConnection.send_command], which "writes an
    encoded command". *)
Definition send_command (c : AdbConnection) (cmd : str) : M unit :=
  fun w =>
    match daemon w c with
    | Some f =>
        match f cmd with
        | Hangup => (Raise OSError, w)
        | _ => (Return tt,
                set_sockets w
                  (alter (fun s => mkSocket (sent s ++ [cmd]) (closed s)) c (sockets w)))
        end
    | None => (Raise OSError, w)
    end.

(** Modelled from the spec: [AdbConnection.check_okay], which "consumes and
    validates a status frame, raising on FAIL": [ProtocolError] with the
    reason of the daemon, [FramingError] when the frame cannot be read. *)
Definition check_okay (c : AdbConnection) : M unit :=
  fun w =>
    match answer w c with
    | Some (Okay _) => (Return tt, w)
    | Some (Fail reason) => (Raise (ProtocolError reason), w)
    | _ => (Raise FramingError, w)
    end.

(** Modelled from the spec: [AdbConnection.read_string_block], which "reads a
    4-hex-digit length then exactly that many bytes" and fails with
    [FramingError] on a short read or a malformed length. *)
Definition read_string_block (c : AdbConnection) : M str :=
  fun w =>
    match answer w c with
    | Some (Okay (Some block)) => (Return block, w)
    | _ => (Raise FramingError, w)
    end.

(** Modelled from the spec: the release of [AdbConnection], which "always
    closes the socket". *)
Definition close (c : AdbConnection) (w : world) : world :=
  set_sockets w (alter (fun s => mkSocket (sent s) true) c (sockets w)).

(** [with acquire as c: body c]. The connection is its own context manager:
    leaving the block, by its end or by an exception, closes it, and the
    exception goes on to the caller. *)
Definition with_ {A} (acquire : M AdbConnection) (body : AdbConnection → M A) : M A :=
  fun w =>
    match acquire w with
    | (Raise e, w1) => (Raise e, w1)
    | (Return c, w1) => let '(r, w2) := body c w1 in (r, close c w2)
    end.

(** ** [AdbClient] *)

(** [AdbClient.list(extended=False)]. *)
Definition list_ (self : AdbClient) (extended : bool) : M (list AdbDeviceInfo) :=
  with_ (make_connection self) (fun c =>
    (if extended
     then send_command c (lit "host:devices-l")
     else send_command c (lit "host:devices"));;
    check_okay c;;
    output ← read_string_block c;
    pure (list_loop extended (Py.splitlines output) [])).

(** The body of the generator [iter_device], over the records [list()]
    returned: the handles it yields, in the order it yields them. *)
Fixpoint iter_device_loop (self : AdbClient) (infos : list AdbDeviceInfo)
  : list AdbDevice :=
  match infos with
  | [] => []
  | info :: infos' =>
      if negb (bool_decide (state info = lit "device"))
      then iter_device_loop self infos'
      else mkAdbDevice self (Some (serial info)) None
           :: iter_device_loop self infos'
  end.

(** [AdbClient.iter_device()], run to its end. *)
Definition iter_device (self : AdbClient) : M (list AdbDevice) :=
  infos ← list_ self false;
  mret (iter_device_loop self infos).

(** [AdbClient.device_list()]: [list(self.iter_device())]. *)
Definition device_list (self : AdbClient) : M (list AdbDevice) :=
  iter_device self.

(** Truth value of an argument that is [None] or a [str], and of one that is
    [None] or an [int]. *)
Definition truthy_str (s : option str) : bool :=
  match s with
  | Some (_ :: _) => true
  | _ => false
  end.

Definition truthy_int (n : option Z) : bool :=
  match n with
  | Some n => negb (n =? 0)%Z
  | None => false
  end.

Definition no_device_msg : str := lit "Can't find any android device/emulator".
Definition many_devices_msg : str :=
  lit "more than one device/emulator, please specify the serial number".

(** [AdbClient.device(serial=None, transport_id=None)]. *)
Definition device (self : AdbClient) (serial : option str) (transport_id : option Z)
  : M AdbDevice :=
  if truthy_str serial then mret (mkAdbDevice self serial None)
  else if truthy_int transport_id then mret (mkAdbDevice self None transport_id)
  else
    serial ← os_environ_get (lit "ANDROID_SERIAL");
    if negb (truthy_str serial) then
      ds ← device_list self;
      if (length ds =? 0)%nat then raise (AdbError no_device_msg)
      else if (1 <? length ds)%nat then raise (AdbError many_devices_msg)
      else pure (getitem ds 0)
    else mret (mkAdbDevice self serial None).

(** ** Shell calls: the deprecated shim and the asyncio bridge *)

(** The values that reach the parameters [stream] and [timeout] of a shell
    call: [None], a [bool], or a number of seconds. *)
Inductive pyval :=
  | PyNone
  | PyBool (b : bool)
  | PyFloat (x : Z * positive).  (* numerator and denominator *)

(** [bool(v)]. *)
Definition truthy (v : pyval) : bool :=
  match v with
  | PyNone => false
  | PyBool b => b
  | PyFloat (n, _) => negb (n =? 0)%Z
  end.

(** An optional timeout, as a value. *)
Definition of_timeout (t : option (Z * positive)) : pyval :=
  match t with
  | None => PyNone
  | Some x => PyFloat x
  end.

(** A shell command: a [str], or a [list] or [tuple] of arguments. *)
Inductive cmdargs :=
  | CmdStr (s : str)
  | CmdSeq (l : list str).

(** What a shell call returns: the output as a [str], or the connection when
    the output is streamed. *)
Inductive shell_result :=
  | Output (text : str)
  | Stream (c : AdbConnection).

Section shell.

(** [AdbDevice.shell(cmdargs, stream, timeout)] of adbutils/_device.py,
    which is not among the sources: its parameters are, in this order,
    the command, [stream] (default [False]) and [timeout]. *)
Variable AdbDevice_shell : AdbDevice → cmdargs → pyval → pyval → M shell_result.

(** The default of the parameter [timeout] of [AdbDevice.shell]. *)
Variable default_timeout : pyval.

(** [AdbClient.shell(serial, command, stream=False, timeout=None)],
    deprecated: [self.device(serial).shell(command, stream=stream,
    timeout=timeout)]. *)
Definition shell (self : AdbClient) (serial : option str) (command : cmdargs)
    (stream : bool) (timeout : option (Z * positive)) : M shell_result :=
  d ← device self serial None;
  AdbDevice_shell d command (PyBool stream) (of_timeout timeout).

(** The blocking call [device.shell(cmd, timeout=timeout)], the one the
    specification compares the bridge with. *)
Definition blocking_shell (d : AdbDevice) (cmd : cmdargs)
    (timeout : option (Z * positive)) : M shell_result :=
  AdbDevice_shell d cmd (PyBool false) (of_timeout timeout).

(** The two steps the specification describes for the shim: resolve a
    handle for the serial, then call shell on it with the same command,
    stream flag and timeout. *)
Definition resolve_then_shell (self : AdbClient) (serial : option str)
    (command : cmdargs) (stream : bool) (timeout : option (Z * positive))
  : M shell_result :=
  fun w =>
    match device self serial None w with
    | (Return d, w') =>
        AdbDevice_shell d command (PyBool stream) (of_timeout timeout) w'
    | (Raise e, w') => (Raise e, w')
    end.

(** [await asyncio.to_thread(call)]: the call runs on another thread and
    the awaiting caller gets what it returned, or the exception it raised.
    Threads and the event loop are not modelled. *)
Definition to_thread {A} (call : M A) : M A := call.

(** [AsyncAdbController(host, port, socket_timeout)]. *)
Record AsyncAdbController := mkAsyncAdbController { adb : AdbClient }.

Definition AsyncAdbController_init (host : str) (port : Z)
    (socket_timeout : option Z) : AsyncAdbController :=
  mkAsyncAdbController (mkAdbClient host port socket_timeout).

(** [AsyncAdbController.device_list()]. *)
Definition async_device_list (self : AsyncAdbController) : M (list AdbDevice) :=
  to_thread (device_list (adb self)).

(** [AsyncAdbController.get_device(serial=None)]. *)
Definition async_get_device (self : AsyncAdbController) (serial : option str)
  : M AdbDevice :=
  to_thread (device (adb self) serial None).

(** [AsyncAdbController.shell(device, cmd, timeout=None)]:
    [asyncio.to_thread(device.shell, cmd, timeout)] calls
    [device.shell(cmd, timeout)], which binds [timeout] to the second
    parameter of [AdbDevice.shell], [stream], and leaves its parameter
    [timeout] at the default. *)
Definition async_shell (self : AsyncAdbController) (d : AdbDevice)
    (cmd : cmdargs) (timeout : option (Z * positive)) : M shell_result :=
  to_thread (AdbDevice_shell d cmd (of_timeout timeout) default_timeout).

End shell.

(** Modelled from the spec: the selector command a device-targeted session
    sends first, [host:transport:<serial>] or the transport-id form (the
    connection layer, adbutils/_adb.py and adbutils/_device.py, is not among
    the sources). A handle obtained from [device] always has one of the two
    selectors. *)
Definition selector (d : AdbDevice) : str :=
  match dev_serial d, dev_transport_id d with
  | Some s, _ => lit "host:transport:" ++ s
  | None, Some n => lit "host-transport-id:" ++ lit (pretty n)
  | None, None => lit "host:transport-any"
  end.

(** The command as one string: the arguments of a sequence are joined with
    spaces. *)
Fixpoint join_args (l : list str) : str :=
  match l with
  | [] => []
  | [a] => a
  | a :: l' => a ++ lit " " ++ join_args l'
  end.

Definition cmdline (cmd : cmdargs) : str :=
  match cmd with
  | CmdStr s => s
  | CmdSeq l => join_args l
  end.

(** Modelled from the spec: [AdbDevice.shell] of adbutils/_device.py, which
    is not among the sources. It "opens a device-selected session, sends
    [shell,raw:<command>] (or the streaming variant), and either reads the
    entire output to completion and returns it decoded as text (non-stream),
    or returns a live handle for incremental reads (stream)". Time is not
    modelled: no call runs out of its timeout. *)
Definition spec_shell (d : AdbDevice) (cmd : cmdargs) (stream timeout : pyval)
  : M shell_result :=
  fun w =>
    match make_connection (client d) w with
    | (Raise e, w1) => (Raise e, w1)
    | (Return c, w1) =>
        let session : M shell_result :=
          send_command c (selector d);;
          check_okay c;;
          send_command c (lit "shell,raw:" ++ cmdline cmd);;
          check_okay c;;
          if truthy stream then mret (Stream c)
          else Output <$> read_string_block c in
        match session w1 with
        | (Return (Stream c'), w2) => (Return (Stream c'), w2)
        | (r, w2) => (r, close c w2)
        end
    end.


(** ** Notions of the specification *)

(** The part of [s] before its first [sep] (all of [s] when it has none), and
    the part after its first [sep]. *)
Fixpoint before (sep : char) (s : str) : str :=
  match s with
  | [] => []
  | c :: s' => if c =? sep then [] else c :: before sep s'
  end.

Fixpoint after (sep : char) (s : str) : str :=
  match s with
  | [] => []
  | c :: s' => if c =? sep then s' else after sep s'
  end.

(** How many times [sep] occurs in [s]. *)
Definition occurrences (sep : char) (s : str) : nat :=
  length (filter (fun c => c = sep) s).


(** The entry a tag token [key:value] stands for: its key is what comes before
    the first colon, its value what lies between the first colon and the
    second one (or the end of the token). *)
Definition tag_key (tok : str) : str := before COLON tok.
Definition tag_value (tok : str) : str := before COLON (after COLON tok).

(** The mapping a sequence of tag tokens stands for, read from left to
    right. *)
Definition tags_of (toks : list str) : gmap (list N) (list N) :=
  foldl (fun d tok => <[tag_key tok := tag_value tok]> d) ∅ toks.

(** A listing line with its two required fields, serial and state. *)
Definition has_fields (line : str) : Prop :=
  (num_required_fields ≤ length (Py.split line))%nat.

#[export] Instance has_fields_dec line : Decision (has_fields line).
Proof. unfold has_fields. apply _. Defined.

(** The tag tokens of a line: the tokens after the first two. *)
Definition tag_tokens (line : str) : list str :=
  drop num_required_fields (Py.split line).

(** The record of a line: serial is the first token, state the second. *)
Definition basic_info (line : str) : AdbDeviceInfo :=
  mkAdbDeviceInfo (nth 0 (Py.split line) []) (nth 1 (Py.split line) []) ∅.

Definition extended_info (line : str) : AdbDeviceInfo :=
  mkAdbDeviceInfo (nth 0 (Py.split line) []) (nth 1 (Py.split line) [])
    (tags_of (tag_tokens line)).

(** The command of a discovery. *)
Definition discovery_command (extended : bool) : str :=
  if extended then lit "host:devices-l" else lit "host:devices".

(** The daemon accepts the next connection and answers the discovery command
    with the block [output]. *)
Definition serves (w : world) (extended : bool) (output : str) : Prop :=
  ∃ f, daemon w (length (sockets w)) = Some f
       ∧ f (discovery_command extended) = Okay (Some output).

(** The world once a connection has been made, the commands [cmds] written
    on it, and the connection closed. *)
Definition after_session (w : world) (cmds : list str) : world :=
  set_sockets w (sockets w ++ [mkSocket cmds true]).

(** Every socket opened since the world [w] is closed in [w'], and the
    sockets of [w] are as they were. *)
Definition released (w w' : world) : Prop :=
  ∃ new, sockets w' = sockets w ++ new
         ∧ Forall (fun s => closed s = true) new.

(** The first token of [line] is the serial of [info] and its second token
    the state of [info]. *)
Definition parsed_from (line : str) (info : AdbDeviceInfo) : Prop :=
  Py.split line !! 0%nat = Some (serial info)
  ∧ Py.split line !! 1%nat = Some (state info).

(** The tags of [info] are those of the tag tokens of [line] that have one
    colon each: a key has the value of the last token that carries it. *)
Definition tagged_from (line : str) (info : AdbDeviceInfo) : Prop :=
  ∀ k v,
    tags info !! k = Some v ↔
    ∃ pre tok post,
      tag_tokens line = pre ++ tok :: post
      ∧ before COLON tok = k ∧ after COLON tok = v
      ∧ Forall (fun t => before COLON t ≠ k) post.

(** Every tag token of every line of a listing has exactly one colon. *)
Definition well_tagged (lines : list str) : Prop :=
  Forall (fun line =>
            Forall (fun tok => occurrences COLON tok = 1%nat) (tag_tokens line))
         lines.

(** The tags of a discovery as a reading by presence has them: every tag
    token of a line has its key mapped to its own value. *)
Definition tags_map_every_token : Prop :=
  ∀ self w output,
    serves w true output →
    well_tagged (Py.splitlines output) →
    ∃ infos,
      fst (list_ self true w) = Return infos
      ∧ Forall2 (fun line info =>
                   ∀ tok, tok ∈ tag_tokens line →
                          tags info !! before COLON tok
                          = Some (after COLON tok))
                (filter has_fields (Py.splitlines output)) infos.

(** ** Concrete inputs *)

Definition TAB : char := 0x09.

Definition client0 : AdbClient := mkAdbClient (lit "127.0.0.1") 5037 None.

(** A block of lines, each ended by a line feed. *)
Definition listing (lines : list str) : str :=
  mjoin ((fun l => l ++ [Py.LF]) <$> lines).

(** A world without sockets, whose daemon accepts every connection and
    answers every command with the block [output]. *)
Definition serving (env : gmap (list N) (list N)) (output : str) : world :=
  mkWorld env (fun _ => Some (fun _ => Okay (Some output))) [].

Definition listing_three : str :=
  listing [lit "AAA" ++ [TAB] ++ lit "device";
           lit "BBB" ++ [TAB] ++ lit "offline";
           [];
           lit "CCC" ++ [TAB] ++ lit "device"].

Definition listing_tags : str :=
  listing [lit "emulator-5554 device product:sdk model:Pixel transport_id:1";
           lit "* daemon"].

Definition listing_repeated_key : str :=
  listing [lit "SER device a:1 a:2"].

Definition listing_no_colon : str :=
  listing [lit "AAA device usb:1"; lit "BBB device nocolon"].

Definition listing_two_colons : str :=
  listing [lit "AAA device usb:1-2:rest"].

(** ** Notions of the specification: resolution *)

Definition ANDROID_SERIAL : str := lit "ANDROID_SERIAL".

(** The two failures of a resolution, which the specification calls
    [NoDeviceError] and [AmbiguousDeviceError]: the code raises [AdbError]
    for both, with one message each. *)
Definition NoDeviceError : exn := AdbError no_device_msg.
Definition AmbiguousDeviceError : exn := AdbError many_devices_msg.

(** The handle [iter_device] yields for a record. *)
Definition handle_of (self : AdbClient) (info : AdbDeviceInfo) : AdbDevice :=
  mkAdbDevice self (Some (serial info)) None.

(** The handles of the records whose state is [device], in the order of the
    records. *)
Definition connected (self : AdbClient) (infos : list AdbDeviceInfo)
  : list AdbDevice :=
  handle_of self <$> filter (fun i => state i = lit "device") infos.

(** Auto-detection: one discovery, and the only connected device if there is
    exactly one. *)
Definition autodetect (self : AdbClient) : M AdbDevice :=
  fun w =>
    match device_list self w with
    | (Return [], w') => (Raise NoDeviceError, w')
    | (Return [d], w') => (Return d, w')
    | (Return (_ :: _ :: _), w') => (Raise AmbiguousDeviceError, w')
    | (Raise e, w') => (Raise e, w')
    end.

(** The priority chain read by presence: a serial that is given, whatever it
    is, decides alone. *)
Definition chain_by_presence : Prop :=
  ∀ self s transport_id w,
    device self (Some s) transport_id w
    = (Return (mkAdbDevice self (Some s) None), w).

(** The world [w] with another environment. *)
Definition with_environ (w : world) (env : gmap (list N) (list N)) : world :=
  mkWorld env (daemon w) (sockets w).

(** ** Concrete inputs: devices and shell calls *)

Definition controller0 : AsyncAdbController :=
  AsyncAdbController_init (lit "127.0.0.1") 5037 None.

Definition device_AAA : AdbDevice := mkAdbDevice client0 (Some (lit "AAA")) None.

Definition listing_one : str := listing [lit "AAA" ++ [TAB] ++ lit "device"].

Definition five_seconds : Z * positive := (5%Z, 1%positive).

(** The value of a tag token with more than one colon as a reading token by
    token has it: in a listing that parses, every token [k:v:rest] leaves
    the key [k] mapped to [v], whatever follows it in its line. *)
Definition tag_value_every_token : Prop :=
  ∀ self w output,
    serves w true output →
    Forall (fun line => Forall (fun tok => COLON ∈ tok) (tag_tokens line))
           (Py.splitlines output) →
    ∃ infos,
      fst (list_ self true w) = Return infos
      ∧ Forall2 (fun line info =>
                   ∀ pre k v rest post,
                     tag_tokens line
                     = pre ++ (k ++ COLON :: v ++ COLON :: rest) :: post →
                     COLON ∉ k → COLON ∉ v →
                     tags info !! k = Some v)
                (filter has_fields (Py.splitlines output)) infos.

Definition listing_truncated_then_repeated : str :=
  listing [lit "S device a:1:x a:2"].

(** ** Notions for the further properties *)

(** A token: a non-empty string without white space. *)
Definition token (t : str) : Prop :=
  t ≠ [] ∧ Forall (fun c => Py.isspace c = false) t.

(** A string of white space only. *)
Definition blank (s : str) : Prop :=
  Forall (fun c => Py.isspace c = true) s.


(** Tokens written one after the other, each behind a gap. *)
Definition spaced (gapped : list (str * str)) : str :=
  mjoin ((fun gt => gt.1 ++ gt.2) <$> gapped).


(** A handle that names its device by a serial that is not empty, and by no
    transport id, made by the client [self]. *)
Definition by_serial (self : AdbClient) (d : AdbDevice) : Prop :=
  client d = self ∧ truthy_str (dev_serial d) = true ∧ dev_transport_id d = None.

(** A handle that names its device by a transport id that is not zero, and
    by no serial, made by the client [self]. *)
Definition by_transport_id (self : AdbClient) (d : AdbDevice) : Prop :=
  client d = self ∧ dev_serial d = None ∧ truthy_int (dev_transport_id d) = true.

(** The second token of a line is the string [device]. *)
Definition in_state_device (line : str) : Prop :=
  Py.split line !! 1%nat = Some (lit "device").

#[export] Instance in_state_device_dec line : Decision (in_state_device line).
Proof. unfold in_state_device. apply _. Defined.

Definition listing_mixed : str :=
  listing [lit "AAA" ++ [TAB] ++ lit "offline";
           lit "BBB" ++ [TAB] ++ lit "device";
           lit "CCC" ++ [TAB] ++ lit "unauthorized"].

Definition listing_offline : str :=
  listing [lit "AAA" ++ [TAB] ++ lit "offline";
           lit "CCC" ++ [TAB] ++ lit "unauthorized"].

(** Between [w] and [w'] the environment and the daemon are the same, and at
    most one socket was opened: it is closed, and nothing was written on it
    but, at most once, the command [cmd]. *)
Definition one_session_at_most (w w' : world) (cmd : str) : Prop :=
  environ w' = environ w
  ∧ daemon w' = daemon w
  ∧ (sockets w' = sockets w
     ∨ sockets w' = sockets w ++ [mkSocket [] true]
     ∨ sockets w' = sockets w ++ [mkSocket [cmd] true]).
(** * Properties *)

(** ** Splitting strings *)

Lemma split_on_nonempty sep s : Py.split_on sep s ≠ [].
Proof.
  destruct s as [|c s]; simpl; [done|].
  destruct (c =? sep); [done|].
  by destruct (Py.split_on sep s).
Qed.

Lemma split_on_cons sep s :
  Py.split_on sep s
  = before sep s ::
    (if bool_decide (sep ∈ s) then Py.split_on sep (after sep s) else []).
Proof.
  induction s as [|c s IH].
  - case_bool_decide as Hin; [inversion Hin | reflexivity].
  - cbn [Py.split_on before after].
    destruct (N.eqb_spec c sep) as [->|Hne].
    + rewrite bool_decide_eq_true_2; [done | by left].
    + rewrite IH. cbn [Py.push_front]. f_equal.
      apply (f_equal (fun b : bool => if b then _ else _)).
      apply bool_decide_ext. rewrite elem_of_cons.
      split; [by right | intros [?|?]; [congruence | done]].
Qed.

Lemma before_app sep k s : sep ∉ k → before sep (k ++ sep :: s) = k.
Proof.
  induction k as [|c k IH]; simpl; intros Hk.
  - by rewrite N.eqb_refl.
  - apply not_elem_of_cons in Hk as [Hc Hk].
    destruct (N.eqb_spec c sep); [congruence|]. by rewrite IH.
Qed.

Lemma after_app sep k s : sep ∉ k → after sep (k ++ sep :: s) = s.
Proof.
  induction k as [|c k IH]; simpl; intros Hk.
  - by rewrite N.eqb_refl.
  - apply not_elem_of_cons in Hk as [Hc Hk].
    destruct (N.eqb_spec c sep); [congruence|]. by rewrite IH.
Qed.

Lemma before_none sep s : sep ∉ s → before sep s = s.
Proof.
  induction s as [|c s IH]; simpl; intros Hs; [done|].
  apply not_elem_of_cons in Hs as [Hc Hs].
  destruct (N.eqb_spec c sep); [congruence|]. by rewrite IH.
Qed.

Lemma before_after sep s : sep ∈ s → s = before sep s ++ sep :: after sep s.
Proof.
  induction s as [|c s IH]; simpl; intros Hs; [by apply elem_of_nil in Hs|].
  destruct (N.eqb_spec c sep) as [->|Hne]; [done|].
  apply elem_of_cons in Hs as [?|Hs]; [congruence|].
  simpl. f_equal. by apply IH.
Qed.

Lemma occurrences_0 sep s : occurrences sep s = 0%nat ↔ sep ∉ s.
Proof.
  unfold occurrences. induction s as [|c s IH]; simpl.
  - split; [intros _; apply not_elem_of_nil | done].
  - rewrite filter_cons. destruct (decide (c = sep)) as [->|Hne]; simpl.
    + split; [done | intros []; by left].
    + rewrite IH, not_elem_of_cons.
      split; [intros ?; split; [congruence | done] | by intros [_ ?]].
Qed.

Lemma occurrences_after sep s :
  sep ∈ s → occurrences sep s = S (occurrences sep (after sep s)).
Proof.
  unfold occurrences. induction s as [|c s IH]; simpl; intros Hs.
  - by apply elem_of_nil in Hs.
  - rewrite filter_cons. destruct (N.eqb_spec c sep) as [->|Hne].
    + by rewrite decide_True.
    + rewrite decide_False by done.
      apply elem_of_cons in Hs as [?|Hs]; [congruence | by apply IH].
Qed.

(** A token with exactly one separator splits in two: what is before the
    separator and what is after it. *)
Lemma split_on_one sep s :
  occurrences sep s = 1%nat → Py.split_on sep s = [before sep s; after sep s].
Proof.
  intros H1.
  assert (Hin : sep ∈ s).
  { destruct (decide (sep ∈ s)) as [|Hn]; [done|].
    apply occurrences_0 in Hn. congruence. }
  pose proof (occurrences_after sep s Hin) as H2.
  assert (Hout : sep ∉ after sep s) by (apply occurrences_0; congruence).
  rewrite split_on_cons, bool_decide_eq_true_2 by done.
  rewrite split_on_cons, bool_decide_eq_false_2 by done.
  by rewrite (before_none sep (after sep s)).
Qed.

(** A token without separator is one piece: it has no element of index 1. *)
Lemma split_on_none sep s : sep ∉ s → Py.split_on sep s = [s].
Proof.
  intros Hs. rewrite split_on_cons, bool_decide_eq_false_2 by done.
  by rewrite before_none.
Qed.

(** The first two pieces of a token that has a separator. *)
Lemma split_on_two sep s :
  sep ∈ s →
  ∃ rest, Py.split_on sep s
          = before sep s :: before sep (after sep s) :: rest.
Proof.
  intros Hs. rewrite split_on_cons, bool_decide_eq_true_2 by done.
  rewrite (split_on_cons sep (after sep s)). eauto.
Qed.

(** Every token of [s.split()] is a non-empty run without white space. *)
Lemma split_tokens s :
  Forall (fun t => t ≠ [] ∧ Forall (fun c => Py.isspace c = false) t)
         (Py.split s).
Proof.
  induction s as [|c s IH]; [constructor|].
  cbn [Py.split]. destruct (Py.isspace c) eqn:Hc; [exact IH|].
  destruct s as [|c' s']; [by repeat constructor|].
  destruct (Py.isspace c') eqn:Hc'.
  - constructor; [by repeat constructor | exact IH].
  - destruct (Py.split (c' :: s')) as [|t ts]; cbn [Py.push_front].
    + by repeat constructor.
    + inversion IH as [|? ? [_ Ht] Hts]; subst.
      constructor; [|done]. split; [done|]. by constructor.
Qed.

(** A token followed by white space is the first token of the split. *)
Lemma split_token_first t c s :
  t ≠ [] → Forall (fun c => Py.isspace c = false) t → Py.isspace c = true →
  Py.split (t ++ c :: s) = t :: Py.split s.
Proof.
  intros Hne Ht Hc. induction Ht as [|a t Ha Ht IH]; [done|].
  cbn [app Py.split]. rewrite Ha.
  destruct t as [|b t'].
  - cbn [app]. rewrite Hc. cbn [Py.split]. by rewrite Hc.
  - cbn [app]. inversion Ht as [|? ? Hb _]; subst. rewrite Hb.
    cbn [app] in IH. by rewrite IH.
Qed.

Example splitlines_ex :
  Py.splitlines (lit "AAA device" ++ [Py.CR; Py.LF] ++ [Py.LF]
                 ++ lit "BBB offline" ++ [Py.LF])
  = [lit "AAA device"; []; lit "BBB offline"].
Proof. reflexivity. Qed.

Example splitlines_empty : Py.splitlines [] = [].
Proof. reflexivity. Qed.

Example split_ex :
  Py.split (lit "  emulator-5554" ++ [TAB] ++ lit "device product:sdk  ")
  = [lit "emulator-5554"; lit "device"; lit "product:sdk"].
Proof. reflexivity. Qed.

Example split_blank : Py.split (lit "   ") = [].
Proof. reflexivity. Qed.

Example split_on_ex :
  Py.split_on COLON (lit "a:b::c") = [lit "a"; lit "b"; []; lit "c"].
Proof. reflexivity. Qed.

Example split_on_no_separator : Py.split_on COLON (lit "abc") = [lit "abc"].
Proof. reflexivity. Qed.

(** ** The dictionary of tags *)

Lemma dict_comprehension_ok toks d :
  Forall (fun tok => COLON ∈ tok) toks →
  dict_comprehension (Py.split_on COLON <$> toks) d
  = Return (foldl (fun d tok => <[tag_key tok := tag_value tok]> d) d toks).
Proof.
  intros Hall. revert d.
  induction Hall as [|tok toks Htok _ IH]; intros d; [done|].
  destruct (split_on_two COLON tok Htok) as [rest Hsplit].
  cbn [fmap list_fmap dict_comprehension foldl]. rewrite Hsplit.
  cbn. apply IH.
Qed.

Lemma dict_comprehension_fail toks d :
  Exists (fun tok => COLON ∉ tok) toks →
  dict_comprehension (Py.split_on COLON <$> toks) d = Raise IndexError.
Proof.
  intros Hex. revert d.
  induction toks as [|tok toks IH]; intros d; [by inversion Hex|].
  cbn [fmap list_fmap dict_comprehension].
  destruct (decide (COLON ∈ tok)) as [Hin|Hout].
  - destruct (split_on_two COLON tok Hin) as [rest ->]. cbn.
    apply IH. by inversion Hex.
  - by rewrite split_on_none.
Qed.

Lemma tags_of_snoc toks tok :
  tags_of (toks ++ [tok]) = <[tag_key tok := tag_value tok]> (tags_of toks).
Proof. unfold tags_of. by rewrite foldl_snoc. Qed.

(** The value of a key is the one of the last token with this key. *)
Lemma tags_of_lookup toks k v :
  tags_of toks !! k = Some v ↔
  ∃ pre tok post,
    toks = pre ++ tok :: post ∧ tag_key tok = k ∧ tag_value tok = v
    ∧ Forall (fun t => tag_key t ≠ k) post.
Proof.
  induction toks as [|tok toks IH] using rev_ind.
  - split; [done|]. intros (pre & tok & post & Heq & _).
    by destruct pre.
  - rewrite tags_of_snoc. destruct (decide (tag_key tok = k)) as [Hk|Hk].
    + rewrite Hk, lookup_insert_eq. split.
      * intros [= <-]. exists toks, tok, []. by repeat split.
      * intros (pre & tok' & post & Heq & Hk' & Hv' & Hpost).
        destruct post as [|p post _] using rev_ind.
        -- apply app_inj_tail in Heq as [_ ->]. by rewrite Hv'.
        -- rewrite app_comm_cons, app_assoc in Heq.
           apply app_inj_tail in Heq as [_ <-].
           apply Forall_app in Hpost as [_ Hp].
           by inversion Hp.
    + rewrite lookup_insert_ne by done. rewrite IH. split.
      * intros (pre & tok' & post & -> & Hk' & Hv' & Hpost).
        exists pre, tok', (post ++ [tok]).
        rewrite <- app_assoc. repeat split; try done.
        apply Forall_app. split; [done|]. by constructor.
      * intros (pre & tok' & post & Heq & Hk' & Hv' & Hpost).
        destruct post as [|p post _] using rev_ind.
        -- apply app_inj_tail in Heq as [_ ->]. congruence.
        -- rewrite app_comm_cons, app_assoc in Heq.
           apply app_inj_tail in Heq as [-> <-].
           apply Forall_app in Hpost as [Hpost _].
           by exists pre, tok', post.
Qed.

(** ** One line of the listing *)

Lemma getitem_nth {A} (l : list A) (i : nat) (d : A) :
  (i < length l)%nat → getitem l i = Return (nth i l d).
Proof.
  intros Hi. unfold getitem.
  destruct (lookup_lt_is_Some_2 l i Hi) as [x Hx].
  rewrite Hx. f_equal. symmetry. by apply nth_lookup_Some.
Qed.

Lemma list_line_short extended line :
  ¬ has_fields line → list_line extended line = Return None.
Proof.
  unfold has_fields, list_line. intros Hshort.
  destruct (Nat.ltb_spec (length (Py.split line)) num_required_fields);
    [done | lia].
Qed.

Lemma list_line_basic line :
  has_fields line → list_line false line = Return (Some (basic_info line)).
Proof.
  unfold has_fields, list_line, basic_info, num_required_fields. intros Hlen.
  destruct (Nat.ltb_spec (length (Py.split line)) 2); [lia|].
  cbn. rewrite (getitem_nth _ 0 []), (getitem_nth _ 1 []) by lia. done.
Qed.

Lemma list_line_extended line :
  has_fields line →
  Forall (fun tok => COLON ∈ tok) (tag_tokens line) →
  list_line true line = Return (Some (extended_info line)).
Proof.
  unfold has_fields, list_line, extended_info, tag_tokens, num_required_fields.
  intros Hlen Htags.
  destruct (Nat.ltb_spec (length (Py.split line)) 2); [lia|].
  rewrite dict_comprehension_ok by done. cbn.
  rewrite (getitem_nth _ 0 []), (getitem_nth _ 1 []) by lia. cbn.
  unfold dict_merge, tags_of. by rewrite (right_id_L ∅ (∪)).
Qed.

Lemma list_line_malformed line :
  has_fields line →
  Exists (fun tok => COLON ∉ tok) (tag_tokens line) →
  list_line true line = Raise IndexError.
Proof.
  unfold has_fields, list_line, tag_tokens, num_required_fields.
  intros Hlen Htags.
  destruct (Nat.ltb_spec (length (Py.split line)) 2); [lia|].
  by rewrite dict_comprehension_fail.
Qed.

(** Whatever the flag, a line gives no record exactly when it lacks a field,
    and the record it gives has its first two tokens as serial and state. *)
Lemma list_line_fields extended line info :
  list_line extended line = Return (Some info) →
  has_fields line
  ∧ serial info = serial (basic_info line)
  ∧ state info = state (basic_info line).
Proof.
  intros Hrun. destruct (decide (has_fields line)) as [Hf|Hf].
  - split; [done|]. destruct extended.
    + destruct (decide (Forall (fun tok => COLON ∈ tok) (tag_tokens line)))
        as [Hall|Hex].
      * rewrite list_line_extended in Hrun by done. by injection Hrun as <-.
      * apply not_Forall_Exists in Hex; [|intros ?; apply _].
        by rewrite list_line_malformed in Hrun.
    + rewrite list_line_basic in Hrun by done. by injection Hrun as <-.
  - by rewrite list_line_short in Hrun.
Qed.

Lemma list_line_plain_tags line info :
  list_line false line = Return (Some info) → tags info = ∅.
Proof.
  intros Hrun. destruct (decide (has_fields line)) as [Hf|Hf].
  - rewrite list_line_basic in Hrun by done. by injection Hrun as <-.
  - by rewrite list_line_short in Hrun.
Qed.

(** ** The loop over the lines *)

Lemma list_loop_plain lines infos :
  list_loop false lines infos
  = Return (infos ++ (basic_info <$> filter has_fields lines)).
Proof.
  revert infos. induction lines as [|line lines IH]; intros infos.
  - cbn. by rewrite app_nil_r.
  - cbn [list_loop]. rewrite filter_cons.
    destruct (decide (has_fields line)) as [Hf|Hf].
    + rewrite list_line_basic by done. cbn. rewrite IH.
      by rewrite <- app_assoc.
    + rewrite list_line_short by done. cbn. apply IH.
Qed.

Lemma list_loop_extended lines infos :
  Forall (fun line => Forall (fun tok => COLON ∈ tok) (tag_tokens line)) lines →
  list_loop true lines infos
  = Return (infos ++ (extended_info <$> filter has_fields lines)).
Proof.
  intros Hall. revert infos.
  induction Hall as [|line lines Hline _ IH]; intros infos.
  - cbn. by rewrite app_nil_r.
  - cbn [list_loop]. rewrite filter_cons.
    destruct (decide (has_fields line)) as [Hf|Hf].
    + rewrite list_line_extended by done. cbn. rewrite IH.
      by rewrite <- app_assoc.
    + rewrite list_line_short by done. cbn. apply IH.
Qed.

Lemma list_loop_malformed lines infos :
  Exists (fun line =>
            has_fields line ∧ Exists (fun tok => COLON ∉ tok) (tag_tokens line))
         lines →
  list_loop true lines infos = Raise IndexError.
Proof.
  intros Hex. revert infos.
  induction lines as [|line lines IH]; intros infos; [by inversion Hex|].
  cbn [list_loop].
  destruct (decide (has_fields line)) as [Hf|Hf].
  - destruct (decide (Forall (fun tok => COLON ∈ tok) (tag_tokens line)))
      as [Hall|Hbad].
    + rewrite list_line_extended by done. cbn. apply IH.
      inversion Hex as [? ? [_ Hbad]|]; subst; [|done].
      exfalso. apply Exists_exists in Hbad as (tok & Hin & Hout).
      rewrite Forall_forall in Hall. by apply Hout, Hall.
    + apply not_Forall_Exists in Hbad; [|intros ?; apply _].
      by rewrite list_line_malformed.
  - rewrite list_line_short by done. cbn. apply IH.
    inversion Hex as [? ? [? _]|]; subst; done.
Qed.

(** The records are, in the order of the lines, those of the lines that have
    both fields; only their tags depend on the flag. *)
Lemma list_loop_fields extended lines infos infos' :
  list_loop extended lines infos = Return infos' →
  (fun i => (serial i, state i)) <$> infos'
  = ((fun i => (serial i, state i)) <$> infos)
    ++ ((fun l => (serial (basic_info l), state (basic_info l)))
          <$> filter has_fields lines).
Proof.
  revert infos. induction lines as [|line lines IH]; intros infos Hrun.
  - cbn in Hrun. injection Hrun as <-. cbn. by rewrite app_nil_r.
  - cbn [list_loop] in Hrun.
    destruct (list_line extended line) as [[info|]|e] eqn:Hline;
      cbn in Hrun; [..|done].
    + apply list_line_fields in Hline as (Hf & Hs & Hst).
      rewrite (IH _ Hrun), filter_cons, decide_True by done.
      rewrite fmap_app, <- app_assoc. cbn. by rewrite Hs, Hst.
    + rewrite (IH _ Hrun), filter_cons. case_decide as Hf; [|done].
      destruct extended.
      * destruct (decide (Forall (fun tok => COLON ∈ tok) (tag_tokens line)))
          as [Hall|Hex].
        -- by rewrite list_line_extended in Hline.
        -- apply not_Forall_Exists in Hex; [|intros ?; apply _].
           by rewrite list_line_malformed in Hline.
      * by rewrite list_line_basic in Hline.
Qed.

(** ** Running [list] against the daemon *)

Lemma alter_last {A} (f : A → A) (l : list A) (x : A) :
  alter f (length l) (l ++ [x]) = l ++ [f x].
Proof.
  replace (length l) with (length l + 0)%nat by lia.
  by rewrite alter_app_r.
Qed.

Lemma lookup_last {A} (l : list A) (x : A) : (l ++ [x]) !! length l = Some x.
Proof. by rewrite list_lookup_middle. Qed.

(** What a call of [list] does, by the behaviour of the daemon on the
    connection the call makes. *)
Lemma list_run self extended w :
  list_ self extended w =
  match daemon w (length (sockets w)) with
  | None => (Raise OSError, w)
  | Some f =>
      match f (discovery_command extended) with
      | Hangup => (Raise OSError, after_session w [])
      | Garbled =>
          (Raise FramingError, after_session w [discovery_command extended])
      | Fail reason =>
          (Raise (ProtocolError reason),
           after_session w [discovery_command extended])
      | Okay None =>
          (Raise FramingError, after_session w [discovery_command extended])
      | Okay (Some output) =>
          (list_loop extended (Py.splitlines output) [],
           after_session w [discovery_command extended])
      end
  end.
Proof.
  unfold list_, with_, make_connection.
  destruct (daemon w (length (sockets w))) as [f|] eqn:Hd; [|done].
  replace (if extended
           then send_command (length (sockets w)) (lit "host:devices-l")
           else send_command (length (sockets w)) (lit "host:devices"))
    with (send_command (length (sockets w)) (discovery_command extended))
    by (by destruct extended).
  set (cmd := discovery_command extended).
  unfold mbind, M_bind, send_command at 1. cbn [daemon set_sockets].
  rewrite Hd. unfold set_sockets. cbn [sockets environ daemon].
  rewrite alter_last. cbn [sent closed app].
  set (w1 := mkWorld (environ w) (daemon w)
               (sockets w ++ [mkSocket [cmd] false])).
  assert (Hans : answer w1 (length (sockets w)) = Some (f cmd)).
  { unfold answer, w1. cbn [daemon sockets]. rewrite Hd. cbn.
    by rewrite lookup_last. }
  assert (Hclose : close (length (sockets w)) w1 = after_session w [cmd]).
  { unfold close, after_session, w1, set_sockets. cbn. by rewrite alter_last. }
  destruct (f cmd) as [| |reason|[output|]] eqn:Hf.
  - unfold close, after_session, set_sockets. cbn. by rewrite alter_last.
  - unfold check_okay. rewrite Hans. cbv beta iota. by rewrite Hclose.
  - unfold check_okay. rewrite Hans. cbv beta iota. by rewrite Hclose.
  - unfold check_okay, read_string_block, pure. rewrite Hans. cbv beta iota.
    rewrite Hans. cbv beta iota. by rewrite Hclose.
  - unfold check_okay, read_string_block. rewrite Hans. cbv beta iota.
    rewrite Hans. cbv beta iota. by rewrite Hclose.
Qed.

Lemma list_plain_run self w output :
  serves w false output →
  list_ self false w
  = (Return (basic_info <$> filter has_fields (Py.splitlines output)),
     after_session w [lit "host:devices"]).
Proof.
  intros (f & Hd & Hf). rewrite list_run, Hd, Hf.
  by rewrite list_loop_plain.
Qed.

Lemma list_extended_run self w output :
  serves w true output →
  Forall (fun line => Forall (fun tok => COLON ∈ tok) (tag_tokens line))
         (Py.splitlines output) →
  list_ self true w
  = (Return (extended_info <$> filter has_fields (Py.splitlines output)),
     after_session w [lit "host:devices-l"]).
Proof.
  intros (f & Hd & Hf) Hall. rewrite list_run, Hd, Hf.
  by rewrite list_loop_extended.
Qed.

Lemma basic_info_parsed line : has_fields line → parsed_from line (basic_info line).
Proof.
  unfold has_fields, parsed_from, basic_info, num_required_fields.
  intros Hlen. cbn [serial state].
  destruct (lookup_lt_is_Some_2 (Py.split line) 0) as [x Hx]; [lia|].
  destruct (lookup_lt_is_Some_2 (Py.split line) 1) as [y Hy]; [lia|].
  by rewrite (nth_lookup_Some _ _ _ _ Hx), (nth_lookup_Some _ _ _ _ Hy).
Qed.

Lemma Forall2_fmap_filter {A B} (P : A → Prop) `{∀ x, Decision (P x)}
    (R : A → B → Prop) (f : A → B) (l : list A) :
  (∀ x, x ∈ l → P x → R x (f x)) → Forall2 R (filter P l) (f <$> filter P l).
Proof.
  intros HR. apply Forall2_fmap_r, Forall_Forall2_diag, Forall_forall.
  intros x Hx. apply list_elem_of_filter in Hx as [? ?]. by apply HR.
Qed.

(** ** Discovery *)

(** C3. For every block the daemon answers a discovery with, [list()]
    returns one record per line that has at least two tokens, in the order
    of the lines: its serial is the first token of the line, its state the
    second, and its tags are empty; a line with fewer than two tokens gives
    no record. With [extended=True], whenever the call returns, the serials
    and states are the same ones in the same order. *)
Theorem list_one_record_per_line (self : AdbClient) (w : world)
    (extended : bool) (output : str) :
  serves w extended output →
  (extended = false →
   ∃ infos,
     fst (list_ self false w) = Return infos
     ∧ Forall2 (fun line info => parsed_from line info ∧ tags info = ∅)
               (filter has_fields (Py.splitlines output)) infos)
  ∧ (∀ infos,
       fst (list_ self extended w) = Return infos →
       Forall2 parsed_from (filter has_fields (Py.splitlines output)) infos).
Proof.
  intros Hs. split.
  - intros ->. eexists. rewrite (list_plain_run _ _ _ Hs). split; [done|].
    apply Forall2_fmap_filter. intros line _ Hf. split; [|done].
    by apply basic_info_parsed.
  - intros infos Hrun. destruct Hs as (f & Hd & Hf).
    rewrite list_run, Hd, Hf in Hrun. cbn [fst] in Hrun.
    apply list_loop_fields in Hrun. cbn in Hrun.
    remember (filter has_fields (Py.splitlines output)) as lines eqn:Hl.
    assert (Hall : Forall has_fields lines).
    { subst lines. apply Forall_forall. intros x Hx.
      by apply list_elem_of_filter in Hx as [? _]. }
    clear Hl. revert infos Hrun.
    induction Hall as [|line lines Hline _ IH]; intros [|info infos] Hrun;
      try discriminate Hrun.
    + constructor.
    + cbn in Hrun. injection Hrun as Hs Hst Hrest.
      constructor; [|by apply IH].
      destruct (basic_info_parsed line Hline) as [H0 H1].
      unfold parsed_from. by rewrite Hs, Hst.
Qed.

Lemma list_one_record_per_line_witness :
  serves (serving ∅ listing_three) false listing_three
  ∧ ∃ infos,
      fst (list_ client0 false (serving ∅ listing_three)) = Return infos
      ∧ Forall2 (fun line info => parsed_from line info ∧ tags info = ∅)
                (filter has_fields (Py.splitlines listing_three)) infos.
Proof.
  assert (Hs : serves (serving ∅ listing_three) false listing_three)
    by (eexists; split; reflexivity).
  split; [exact Hs|].
  exact (proj1 (list_one_record_per_line client0 _ false _ Hs) eq_refl).
Defined.

Example list_three :
  fst (list_ client0 false (serving ∅ listing_three))
  = Return [mkAdbDeviceInfo (lit "AAA") (lit "device") ∅;
            mkAdbDeviceInfo (lit "BBB") (lit "offline") ∅;
            mkAdbDeviceInfo (lit "CCC") (lit "device") ∅].
Proof. vm_compute. reflexivity. Qed.

(** C8. However a call of [list] ends -- the daemon unreachable, the command
    not written, a FAIL status, a broken frame, an exception while the
    listing is parsed, or a normal return -- every socket the call opened is
    closed in the world it leaves, and the sockets that existed before are as
    they were. *)
Theorem list_releases_connection (self : AdbClient) (extended : bool) (w : world) :
  released w (snd (list_ self extended w)).
Proof.
  unfold released. rewrite list_run.
  destruct (daemon w (length (sockets w))) as [f|].
  - destruct (f (discovery_command extended)) as [| | |[]];
      eexists; (split; [reflexivity | by repeat constructor]).
  - exists []. by rewrite app_nil_r.
Qed.

(** C10. When a line of an extended listing has its two fields and a tag
    token without colon, [list(extended=True)] raises [IndexError], whatever
    the other lines are, with its connection closed. When every tag token has
    a colon the call returns, and a token [k:v:rest] gives the key [k] the
    value [v] alone -- what follows the second colon is dropped -- unless a
    later token of the line has the key [k] too. *)
Theorem list_extended_malformed_tag (self : AdbClient) (w : world) (output : str) :
  serves w true output →
  (Exists (fun line =>
             has_fields line
             ∧ Exists (fun tok => COLON ∉ tok) (tag_tokens line))
          (Py.splitlines output) →
   list_ self true w = (Raise IndexError, after_session w [lit "host:devices-l"]))
  ∧ (Forall (fun line => Forall (fun tok => COLON ∈ tok) (tag_tokens line))
            (Py.splitlines output) →
     ∃ infos,
       fst (list_ self true w) = Return infos
       ∧ Forall2 (fun line info =>
                    ∀ pre k v rest post,
                      tag_tokens line
                      = pre ++ (k ++ COLON :: v ++ COLON :: rest) :: post →
                      COLON ∉ k → COLON ∉ v →
                      Forall (fun t => before COLON t ≠ k) post →
                      tags info !! k = Some v)
                 (filter has_fields (Py.splitlines output)) infos).
Proof.
  intros Hs. split.
  - intros Hex. destruct Hs as (f & Hd & Hf).
    rewrite list_run, Hd, Hf. by rewrite list_loop_malformed.
  - intros Hall. eexists. rewrite (list_extended_run _ _ _ Hs Hall).
    split; [done|].
    apply Forall2_fmap_filter.
    intros line _ _ pre k v rest post Htoks Hk Hv Hpost.
    cbn [tags extended_info]. apply tags_of_lookup.
    exists pre, (k ++ COLON :: v ++ COLON :: rest), post.
    unfold tag_key, tag_value.
    rewrite before_app, after_app, before_app by done. done.
Qed.

Lemma list_extended_malformed_tag_witness :
  list_ client0 true (serving ∅ listing_no_colon)
  = (Raise IndexError,
     after_session (serving ∅ listing_no_colon) [lit "host:devices-l"])
  ∧ ∃ infos,
      fst (list_ client0 true (serving ∅ listing_two_colons)) = Return infos
      ∧ Forall2 (fun line info =>
                   ∀ pre k v rest post,
                     tag_tokens line
                     = pre ++ (k ++ COLON :: v ++ COLON :: rest) :: post →
                     COLON ∉ k → COLON ∉ v →
                     Forall (fun t => before COLON t ≠ k) post →
                     tags info !! k = Some v)
                (filter has_fields (Py.splitlines listing_two_colons)) infos.
Proof.
  split.
  - apply (list_extended_malformed_tag client0 _ listing_no_colon).
    + eexists; split; reflexivity.
    + apply (bool_decide_unpack _). vm_compute. exact I.
  - apply (list_extended_malformed_tag client0 _ listing_two_colons).
    + eexists; split; reflexivity.
    + apply (bool_decide_unpack _). vm_compute. exact I.
Defined.

Example list_two_colons :
  fst (list_ client0 true (serving ∅ listing_two_colons))
  = Return [mkAdbDeviceInfo (lit "AAA") (lit "device")
              {[ lit "usb" := lit "1-2" ]}].
Proof. vm_compute. reflexivity. Qed.

(** C10, as first stated, fails on a line that repeats the key of a token
    with two colons: the line [S device a:1:x a:2] parses, and its tags map
    [a] to [2], not to the [1] between the first two colons of [a:1:x]. *)
Lemma tag_value_repeated_key_counterexample :
  fst (list_ client0 true (serving ∅ listing_truncated_then_repeated))
  = Return [mkAdbDeviceInfo (lit "S") (lit "device") {[ lit "a" := lit "2" ]}]
  ∧ ¬ tag_value_every_token.
Proof.
  split; [vm_compute; reflexivity|].
  intros Hclaim.
  destruct (Hclaim client0 (serving ∅ listing_truncated_then_repeated)
              listing_truncated_then_repeated) as (infos & Hrun & Hall).
  - eexists; split; reflexivity.
  - apply (bool_decide_unpack _). vm_compute. exact I.
  - assert (Hlines :
      filter has_fields (Py.splitlines listing_truncated_then_repeated)
      = [lit "S device a:1:x a:2"]) by (vm_compute; reflexivity).
    rewrite Hlines in Hall.
    apply Forall2_cons_inv_l in Hall as (info & infos' & Htok & _ & ->).
    specialize (Htok [] (lit "a") (lit "1") (lit "x") [lit "a:2"]).
    vm_compute in Hrun. injection Hrun as <-.
    assert (Hv : tags (mkAdbDeviceInfo (lit "S") (lit "device")
                         {[ lit "a" := lit "2" ]}) !! lit "a"
                 = Some (lit "1")).
    { apply Htok.
      - vm_compute. reflexivity.
      - apply (bool_decide_unpack _). vm_compute. exact I.
      - apply (bool_decide_unpack _). vm_compute. exact I. }
    vm_compute in Hv. discriminate Hv.
Qed.

(** C4. When every tag token of an extended listing has exactly one colon,
    [list(extended=True)] returns one record per line with both fields, and
    the tags of the record map a key to a value exactly when the last tag
    token of the line that has this key before its colon has this value
    after it: a token whose key comes again later in the line is replaced by
    the later one. Without [extended], every record has empty tags. *)
Theorem list_extended_tags (self : AdbClient) (w : world) (output : str) :
  serves w true output →
  well_tagged (Py.splitlines output) →
  (∃ infos,
     fst (list_ self true w) = Return infos
     ∧ Forall2 (fun line info => parsed_from line info ∧ tagged_from line info)
               (filter has_fields (Py.splitlines output)) infos)
  ∧ (∀ w' infos,
       fst (list_ self false w') = Return infos →
       Forall (fun info => tags info = ∅) infos).
Proof.
  intros Hs Hwell. split.
  - assert (Hall : Forall (fun line =>
                             Forall (fun tok => COLON ∈ tok) (tag_tokens line))
                          (Py.splitlines output)).
    { eapply Forall_impl; [exact Hwell|]. intros line Hline.
      eapply Forall_impl; [exact Hline|]. intros tok Htok. cbn in Htok.
      destruct (decide (COLON ∈ tok)) as [|Hout]; [done|].
      apply occurrences_0 in Hout. congruence. }
    eexists. rewrite (list_extended_run _ _ _ Hs Hall). split; [done|].
    apply Forall2_fmap_filter. intros line Hl Hf. split.
    + by apply basic_info_parsed.
    + intros k v. cbn [tags extended_info]. rewrite tags_of_lookup.
      assert (Hval : ∀ pre tok post,
                tag_tokens line = pre ++ tok :: post →
                tag_value tok = after COLON tok).
      { intros pre tok post Heq.
        assert (Hone : occurrences COLON tok = 1%nat).
        { unfold well_tagged in Hwell. rewrite Forall_forall in Hwell.
          specialize (Hwell line Hl). rewrite Forall_forall in Hwell.
          apply Hwell. rewrite Heq. apply elem_of_app. right. by left. }
        unfold tag_value. apply before_none, occurrences_0.
        destruct (decide (COLON ∈ tok)) as [Hin|Hout].
        - rewrite occurrences_after in Hone by done. congruence.
        - apply occurrences_0 in Hout. congruence. }
      split.
      * intros (pre & tok & post & Heq & Hk & Hv & Hpost).
        exists pre, tok, post. rewrite <- (Hval _ _ _ Heq). by repeat split.
      * intros (pre & tok & post & Heq & Hk & Hv & Hpost).
        exists pre, tok, post. rewrite (Hval _ _ _ Heq). by repeat split.
  - intros w' infos Hrun. rewrite list_run in Hrun.
    destruct (daemon w' (length (sockets w'))) as [f|]; [|done].
    destruct (f (discovery_command false)) as [| | |[out|]]; try done.
    cbn [fst] in Hrun. rewrite list_loop_plain in Hrun.
    injection Hrun as <-. cbn. apply Forall_fmap, Forall_forall.
    by intros.
Qed.

Lemma list_extended_tags_witness :
  serves (serving ∅ listing_tags) true listing_tags
  ∧ well_tagged (Py.splitlines listing_tags)
  ∧ ∃ infos,
      fst (list_ client0 true (serving ∅ listing_tags)) = Return infos
      ∧ Forall2 (fun line info => parsed_from line info ∧ tagged_from line info)
                (filter has_fields (Py.splitlines listing_tags)) infos.
Proof.
  assert (Hs : serves (serving ∅ listing_tags) true listing_tags)
    by (eexists; split; reflexivity).
  assert (Hw : well_tagged (Py.splitlines listing_tags))
    by (apply (bool_decide_unpack _); vm_compute; exact I).
  split; [exact Hs|]. split; [exact Hw|].
  exact (proj1 (list_extended_tags client0 _ _ Hs Hw)).
Defined.

Example list_tags :
  fst (list_ client0 true (serving ∅ listing_tags))
  = Return [mkAdbDeviceInfo (lit "emulator-5554") (lit "device")
              {[ lit "product" := lit "sdk"; lit "model" := lit "Pixel";
                 lit "transport_id" := lit "1" ]};
            mkAdbDeviceInfo (lit "*") (lit "daemon") ∅].
Proof. vm_compute. reflexivity. Qed.

(** C4, as first stated, fails on a line that repeats a key: the line
    [SER device a:1 a:2] has every tag token with exactly one colon, and its
    tags map [a] to [2], not to the [1] of its first tag token. *)
Lemma tags_repeated_key_counterexample :
  fst (list_ client0 true (serving ∅ listing_repeated_key))
  = Return [mkAdbDeviceInfo (lit "SER") (lit "device") {[ lit "a" := lit "2" ]}]
  ∧ ¬ tags_map_every_token.
Proof.
  split; [vm_compute; reflexivity|].
  intros Hclaim.
  destruct (Hclaim client0 (serving ∅ listing_repeated_key) listing_repeated_key)
    as (infos & Hrun & Hall).
  - eexists; split; reflexivity.
  - apply (bool_decide_unpack _). vm_compute. exact I.
  - assert (Hlines : filter has_fields (Py.splitlines listing_repeated_key)
                     = [lit "SER device a:1 a:2"]) by (vm_compute; reflexivity).
    rewrite Hlines in Hall.
    apply Forall2_cons_inv_l in Hall as (info & infos' & Htok & _ & ->).
    assert (Hin : lit "a:1" ∈ tag_tokens (lit "SER device a:1 a:2")).
    { replace (tag_tokens (lit "SER device a:1 a:2"))
        with [lit "a:1"; lit "a:2"] by (vm_compute; reflexivity).
      by left. }
    specialize (Htok _ Hin).
    vm_compute in Hrun. injection Hrun as <-.
    vm_compute in Htok. discriminate Htok.
Qed.

(** ** The connected devices *)

Lemma iter_device_loop_filter self infos :
  iter_device_loop self infos
  = handle_of self <$> filter (fun i => state i = lit "device") infos.
Proof.
  induction infos as [|info infos IH]; [done|].
  cbn [iter_device_loop]. rewrite filter_cons.
  destruct (decide (state info = lit "device")) as [Hs|Hs].
  - rewrite bool_decide_eq_true_2 by done. cbn. by rewrite IH.
  - rewrite bool_decide_eq_false_2 by done. cbn. by rewrite IH.
Qed.

(** C5. [iter_device()] makes the discovery [list()] makes and yields, in
    the order of the listing, one handle bound to the serial of each record
    whose state is the string [device], and nothing for the other records;
    it raises only when [list()] does. [device_list()] is the list of what
    [iter_device()] yields. *)
Theorem iter_device_keeps_state_device (self : AdbClient) (w : world) :
  iter_device self w
  = (connected self <$> fst (list_ self false w), snd (list_ self false w))
  ∧ device_list self w = iter_device self w.
Proof.
  split; [|done].
  unfold iter_device, mbind, M_bind.
  destruct (list_ self false w) as [[infos|e] w']; [|done].
  cbn. by rewrite iter_device_loop_filter.
Qed.

Example device_list_three :
  fst (device_list client0 (serving ∅ listing_three))
  = Return [mkAdbDevice client0 (Some (lit "AAA")) None;
            mkAdbDevice client0 (Some (lit "CCC")) None].
Proof. vm_compute. reflexivity. Qed.

Lemma device_list_run self w ds w' :
  device_list self w = (Return ds, w') →
  w' = after_session w [lit "host:devices"].
Proof.
  unfold device_list, iter_device, mbind, M_bind. rewrite list_run.
  destruct (daemon w (length (sockets w))) as [f|]; [|done].
  destruct (f (discovery_command false)) as [| | |[out|]]; try done.
  rewrite list_loop_plain. cbn. by intros [= _ <-].
Qed.

Lemma list_with_environ self extended w env :
  list_ self extended (with_environ w env)
  = (fst (list_ self extended w),
     with_environ (snd (list_ self extended w)) env).
Proof.
  rewrite !list_run. cbn [with_environ daemon sockets].
  destruct (daemon w (length (sockets w))) as [f|]; [|done].
  by destruct (f (discovery_command extended)) as [| | |[out|]].
Qed.

Lemma device_list_with_environ self w env :
  device_list self (with_environ w env)
  = (fst (device_list self w), with_environ (snd (device_list self w)) env).
Proof.
  unfold device_list, iter_device, mbind, M_bind.
  rewrite list_with_environ.
  by destruct (list_ self false w) as [[infos|e] w'].
Qed.

(** ** Resolution *)

Lemma device_fallthrough self serial transport_id w :
  truthy_str serial = false →
  truthy_int transport_id = false →
  truthy_str (environ w !! ANDROID_SERIAL) = false →
  device self serial transport_id w = autodetect self w.
Proof.
  intros Hs Ht He. unfold device, autodetect. rewrite Hs, Ht.
  unfold mbind, M_bind, os_environ_get. fold ANDROID_SERIAL. rewrite He.
  cbn [negb].
  destruct (device_list self w) as [[[|d [|d' ds]]|e] w']; done.
Qed.

(** The serial of a record is not empty: it is a token. *)
Lemma list_line_serial extended line info :
  list_line extended line = Return (Some info) → serial info ≠ [].
Proof.
  intros Hrun. apply list_line_fields in Hrun as (Hf & Hs & _).
  destruct (basic_info_parsed line Hf) as [H0 _]. rewrite Hs.
  pose proof (split_tokens line) as Htok. rewrite Forall_forall in Htok.
  apply (Htok (serial (basic_info line))).
  by apply list_elem_of_lookup_2 in H0.
Qed.

Lemma list_loop_serials extended lines infos infos' :
  Forall (fun i => serial i ≠ []) infos →
  list_loop extended lines infos = Return infos' →
  Forall (fun i => serial i ≠ []) infos'.
Proof.
  revert infos. induction lines as [|line lines IH]; intros infos Hall Hrun.
  - cbn in Hrun. by injection Hrun as <-.
  - cbn [list_loop] in Hrun.
    destruct (list_line extended line) as [[info|]|e] eqn:Hline;
      cbn in Hrun; [| |done].
    + apply (IH (infos ++ [info])); [|done].
      apply Forall_app. split; [done|].
      constructor; [|constructor]. by eapply list_line_serial.
    + by apply (IH infos).
Qed.

(** A handle that a resolution returns names its device by exactly one
    selector: a serial that is not empty, or a transport id that is not
    zero. *)
Lemma device_one_selector self ser transport_id w d w' :
  device self ser transport_id w = (Return d, w') →
  (truthy_str (dev_serial d) = true ∧ dev_transport_id d = None)
  ∨ (dev_serial d = None ∧ truthy_int (dev_transport_id d) = true).
Proof.
  unfold device. destruct (truthy_str ser) eqn:Hs.
  { intros [= <- _]. by left. }
  destruct (truthy_int transport_id) eqn:Ht.
  { intros [= <- _]. by right. }
  unfold mbind, M_bind, os_environ_get.
  destruct (truthy_str (environ w !! lit "ANDROID_SERIAL")) eqn:He; cbn [negb].
  { intros [= <- _]. by left. }
  unfold device_list, iter_device, mbind, M_bind. rewrite list_run.
  destruct (daemon w (length (sockets w))) as [f|]; [|done].
  destruct (f (discovery_command false)) as [| | |[out|]]; try done.
  destruct (list_loop false (Py.splitlines out) []) as [infos|e] eqn:Hloop;
    [|done].
  apply list_loop_serials in Hloop; [|constructor].
  cbn. rewrite iter_device_loop_filter.
  destruct (handle_of self <$> filter (fun i => state i = lit "device") infos)
    as [|d0 [|d1 ds]] eqn:Hds; cbn; try done.
  intros [= <- _]. left.
  assert (Hin : d0 ∈ handle_of self <$>
                  filter (fun i => state i = lit "device") infos)
    by (rewrite Hds; by left).
  apply list_elem_of_fmap in Hin as (info & -> & Hin).
  apply list_elem_of_filter in Hin as [_ Hin].
  rewrite Forall_forall in Hloop. specialize (Hloop _ Hin).
  cbn. split; [|done]. by destruct (serial info).
Qed.

(** C1. Resolution is a chain of four steps, each tried only when the ones
    before it do not apply: a serial that is not empty gives a handle bound
    to it; else a transport id that is not zero gives a handle bound to it;
    else a value of [ANDROID_SERIAL] that is not empty gives a handle bound
    to it; else auto-detection runs. The first three steps leave the world
    as it is: the daemon is not asked whether the device exists. *)
Theorem device_priority_chain (self : AdbClient) (serial : option str)
    (transport_id : option Z) (w : world) :
  (∀ s, serial = Some s → s ≠ [] →
        device self serial transport_id w
        = (Return (mkAdbDevice self (Some s) None), w))
  ∧ (truthy_str serial = false →
     ∀ n, transport_id = Some n → n ≠ 0%Z →
          device self serial transport_id w
          = (Return (mkAdbDevice self None (Some n)), w))
  ∧ (truthy_str serial = false →
     truthy_int transport_id = false →
     ∀ e, environ w !! ANDROID_SERIAL = Some e → e ≠ [] →
          device self serial transport_id w
          = (Return (mkAdbDevice self (Some e) None), w))
  ∧ (truthy_str serial = false →
     truthy_int transport_id = false →
     truthy_str (environ w !! ANDROID_SERIAL) = false →
     device self serial transport_id w = autodetect self w).
Proof.
  repeat split.
  - intros s -> Hs. unfold device. by destruct s.
  - intros Hs n -> Hn. unfold device. rewrite Hs. cbn.
    by destruct (Z.eqb_spec n 0).
  - intros Hs Ht e He Hne. unfold device. rewrite Hs, Ht.
    unfold mbind, M_bind, os_environ_get. fold ANDROID_SERIAL. rewrite He.
    by destruct e.
  - apply device_fallthrough.
Qed.

Lemma device_priority_chain_witness :
  device client0 (Some (lit "S1")) (Some 7%Z)
    (serving {[ ANDROID_SERIAL := lit "S2" ]} listing_three)
  = (Return (mkAdbDevice client0 (Some (lit "S1")) None),
     serving {[ ANDROID_SERIAL := lit "S2" ]} listing_three)
  ∧ device client0 None (Some 7%Z)
      (serving {[ ANDROID_SERIAL := lit "S2" ]} listing_three)
    = (Return (mkAdbDevice client0 None (Some 7%Z)),
       serving {[ ANDROID_SERIAL := lit "S2" ]} listing_three)
  ∧ device client0 None None
      (serving {[ ANDROID_SERIAL := lit "S2" ]} listing_three)
    = (Return (mkAdbDevice client0 (Some (lit "S2")) None),
       serving {[ ANDROID_SERIAL := lit "S2" ]} listing_three)
  ∧ device client0 None None (serving ∅ listing_three)
    = autodetect client0 (serving ∅ listing_three).
Proof.
  split; [|split; [|split]].
  - apply (proj1 (device_priority_chain client0 (Some (lit "S1")) (Some 7%Z) _)
             (lit "S1")); [reflexivity | discriminate].
  - apply (proj1 (proj2 (device_priority_chain client0 None (Some 7%Z) _))
             eq_refl 7%Z); [reflexivity | discriminate].
  - apply (proj1 (proj2 (proj2 (device_priority_chain client0 None None
                                  (serving {[ ANDROID_SERIAL := lit "S2" ]}
                                     listing_three))))
             eq_refl eq_refl (lit "S2")); [vm_compute; reflexivity | discriminate].
  - apply (proj2 (proj2 (proj2 (device_priority_chain client0 None None
                                  (serving ∅ listing_three))))
             eq_refl eq_refl); vm_compute; reflexivity.
Defined.

(** C1, as first stated, fails on a serial that is given and empty: with
    [serial=""] and [transport_id=7] the handle is bound to the transport id,
    not to the serial. *)
Lemma device_empty_serial_counterexample :
  device client0 (Some []) (Some 7%Z) (serving ∅ listing_three)
  = (Return (mkAdbDevice client0 None (Some 7%Z)), serving ∅ listing_three)
  ∧ ¬ chain_by_presence.
Proof.
  split; [reflexivity|].
  intros Hclaim.
  specialize (Hclaim client0 [] (Some 7%Z) (serving ∅ listing_three)).
  discriminate Hclaim.
Qed.

(** C2. With no serial, no transport id and [ANDROID_SERIAL] unset,
    resolution makes the one discovery of [device_list()] and decides on the
    list it returns: it raises the no-device error on an empty list, raises
    the ambiguous-device error on a list of more than one handle, and
    returns the handle of a list of one. It does not try again: the world it
    leaves is the one after that discovery, with one more socket, closed,
    on which the discovery command was written once. *)
Theorem device_autodetect (self : AdbClient) (w w' : world) (ds : list AdbDevice) :
  environ w !! ANDROID_SERIAL = None →
  device_list self w = (Return ds, w') →
  (ds = [] → device self None None w = (Raise NoDeviceError, w'))
  ∧ ((1 < length ds)%nat →
     device self None None w = (Raise AmbiguousDeviceError, w'))
  ∧ (∀ d, ds = [d] → device self None None w = (Return d, w'))
  ∧ sockets w' = sockets w ++ [mkSocket [lit "host:devices"] true].
Proof.
  intros He Hl.
  rewrite device_fallthrough by (done || by rewrite He).
  unfold autodetect. rewrite Hl. repeat split.
  - by intros ->.
  - destruct ds as [|d [|d' ds]]; cbn; [lia | lia | done].
  - by intros d ->.
  - by rewrite (device_list_run _ _ _ _ Hl).
Qed.

Lemma device_autodetect_witness :
  device client0 None None (serving ∅ [])
  = (Raise NoDeviceError, after_session (serving ∅ []) [lit "host:devices"])
  ∧ device client0 None None (serving ∅ listing_three)
    = (Raise AmbiguousDeviceError,
       after_session (serving ∅ listing_three) [lit "host:devices"])
  ∧ device client0 None None (serving ∅ listing_one)
    = (Return device_AAA,
       after_session (serving ∅ listing_one) [lit "host:devices"]).
Proof.
  split; [|split].
  - apply (device_autodetect client0 (serving ∅ []) _ []);
      [apply lookup_empty | vm_compute; reflexivity | reflexivity].
  - apply (device_autodetect client0 (serving ∅ listing_three) _
             [mkAdbDevice client0 (Some (lit "AAA")) None;
              mkAdbDevice client0 (Some (lit "CCC")) None]);
      [apply lookup_empty | vm_compute; reflexivity | cbn; lia].
  - apply (device_autodetect client0 (serving ∅ listing_one) _ [device_AAA]);
      [apply lookup_empty | vm_compute; reflexivity | reflexivity].
Defined.

(** C9. The selectors are tested by their truth value: an empty serial
    behaves as no serial, a transport id of zero as no transport id, and an
    [ANDROID_SERIAL] set to the empty string as an unset one -- the same
    result and the same traffic with the daemon. Each falls through to the
    next step of the chain: with a serial that is absent or empty, a
    transport id that is not zero gives the handle bound to it; with a
    transport id that is absent or zero as well, a default serial that is
    not empty gives the handle bound to it; and with a default serial that
    is unset or empty, auto-detection runs. *)
Theorem device_selectors_by_truth (self : AdbClient) (serial : option str)
    (transport_id : option Z) (w : world) :
  device self (Some []) transport_id w = device self None transport_id w
  ∧ device self serial (Some 0%Z) w = device self serial None w
  ∧ fst (device self serial transport_id
           (with_environ w (<[ANDROID_SERIAL := []]> (environ w))))
    = fst (device self serial transport_id
             (with_environ w (delete ANDROID_SERIAL (environ w))))
  ∧ sockets (snd (device self serial transport_id
                    (with_environ w (<[ANDROID_SERIAL := []]> (environ w)))))
    = sockets (snd (device self serial transport_id
                      (with_environ w (delete ANDROID_SERIAL (environ w)))))
  ∧ (serial = None ∨ serial = Some [] →
     ∀ n, n ≠ 0%Z →
          device self serial (Some n) w
          = (Return (mkAdbDevice self None (Some n)), w))
  ∧ (serial = None ∨ serial = Some [] →
     transport_id = None ∨ transport_id = Some 0%Z →
     ∀ e, environ w !! ANDROID_SERIAL = Some e → e ≠ [] →
          device self serial transport_id w
          = (Return (mkAdbDevice self (Some e) None), w))
  ∧ (serial = None ∨ serial = Some [] →
     transport_id = None ∨ transport_id = Some 0%Z →
     environ w !! ANDROID_SERIAL = None
     ∨ environ w !! ANDROID_SERIAL = Some [] →
     device self serial transport_id w = autodetect self w).
Proof.
  split; [done|]. split; [done|].
  assert (Henv :
    fst (device self serial transport_id
           (with_environ w (<[ANDROID_SERIAL := []]> (environ w))))
    = fst (device self serial transport_id
             (with_environ w (delete ANDROID_SERIAL (environ w))))
    ∧ sockets (snd (device self serial transport_id
                      (with_environ w (<[ANDROID_SERIAL := []]> (environ w)))))
      = sockets (snd (device self serial transport_id
                        (with_environ w (delete ANDROID_SERIAL (environ w)))))).
  { destruct (truthy_str serial) eqn:Hs;
      [unfold device; rewrite Hs; by split|].
    destruct (truthy_int transport_id) eqn:Ht;
      [unfold device; rewrite Hs, Ht; by split|].
    rewrite !device_fallthrough; try done.
    - unfold autodetect. rewrite !device_list_with_environ.
      destruct (device_list self w) as [[[|d [|d' ds]]|e] w']; by split.
    - cbn [with_environ environ]. by rewrite lookup_delete_eq.
    - cbn [with_environ environ]. by rewrite lookup_insert_eq. }
  destruct Henv as [Hres Hsock].
  split; [exact Hres|]. split; [exact Hsock|].
  assert (Hfalsy_s : serial = None ∨ serial = Some [] → truthy_str serial = false)
    by (by intros [-> | ->]).
  assert (Hfalsy_t : transport_id = None ∨ transport_id = Some 0%Z →
                     truthy_int transport_id = false)
    by (by intros [-> | ->]).
  split; [|split].
  - intros Hs n Hn. unfold device. rewrite (Hfalsy_s Hs). cbn.
    by destruct (Z.eqb_spec n 0).
  - intros Hs Ht e He Hne. unfold device.
    rewrite (Hfalsy_s Hs), (Hfalsy_t Ht).
    unfold mbind, M_bind, os_environ_get. fold ANDROID_SERIAL. rewrite He.
    by destruct e.
  - intros Hs Ht He. apply device_fallthrough; [by apply Hfalsy_s | by apply Hfalsy_t |].
    by destruct He as [-> | ->].
Qed.

Lemma device_selectors_by_truth_witness :
  device client0 (Some []) (Some 7%Z)
    (serving {[ ANDROID_SERIAL := lit "S2" ]} listing_three)
  = (Return (mkAdbDevice client0 None (Some 7%Z)),
     serving {[ ANDROID_SERIAL := lit "S2" ]} listing_three)
  ∧ device client0 (Some []) (Some 0%Z)
      (serving {[ ANDROID_SERIAL := lit "S2" ]} listing_three)
    = (Return (mkAdbDevice client0 (Some (lit "S2")) None),
       serving {[ ANDROID_SERIAL := lit "S2" ]} listing_three)
  ∧ device client0 (Some []) (Some 0%Z)
      (serving {[ ANDROID_SERIAL := [] ]} listing_one)
    = autodetect client0 (serving {[ ANDROID_SERIAL := [] ]} listing_one).
Proof.
  split; [|split].
  - apply (proj1 (proj2 (proj2 (proj2 (proj2
             (device_selectors_by_truth client0 (Some []) None
                (serving {[ ANDROID_SERIAL := lit "S2" ]} listing_three)))))));
      [by right | discriminate].
  - apply (proj1 (proj2 (proj2 (proj2 (proj2 (proj2
             (device_selectors_by_truth client0 (Some []) (Some 0%Z)
                (serving {[ ANDROID_SERIAL := lit "S2" ]} listing_three))))))))
      with (e := lit "S2");
      [by right | by right | vm_compute; reflexivity | discriminate].
  - apply (proj2 (proj2 (proj2 (proj2 (proj2 (proj2
             (device_selectors_by_truth client0 (Some []) (Some 0%Z)
                (serving {[ ANDROID_SERIAL := [] ]} listing_one))))))));
      [by right | by right | right; vm_compute; reflexivity].
Defined.

(** ** Shell calls *)

(** C7. The deprecated [AdbClient.shell] does what resolving a handle for
    the serial and calling [shell] on it with the same command, stream flag
    and timeout does: the same result or exception, the same world. For a
    serial that is not empty this is the shell call of the handle bound to
    it, in the world as it is. (The deprecation warning of the decorator is
    not modelled.) *)
Theorem shell_shim_forwards
    (AdbDevice_shell : AdbDevice → cmdargs → pyval → pyval → M shell_result)
    (self : AdbClient) (serial : option str) (command : cmdargs)
    (stream : bool) (timeout : option (Z * positive)) (w : world) :
  shell AdbDevice_shell self serial command stream timeout w
  = resolve_then_shell AdbDevice_shell self serial command stream timeout w
  ∧ (∀ c s,
       shell AdbDevice_shell self (Some (c :: s)) command stream timeout w
       = AdbDevice_shell (mkAdbDevice self (Some (c :: s)) None) command
           (PyBool stream) (of_timeout timeout) w).
Proof.
  split; [|done].
  unfold shell, resolve_then_shell, mbind, M_bind.
  by destruct (device self serial None w) as [[d|e] w'].
Qed.

(** C6. The bridge runs the blocking call and gives back what it returned or
    raised: [device_list] and [get_device] are the blocking [device_list] and
    [device]. Its [shell] is not the blocking [device.shell(cmd,
    timeout=timeout)]: it calls [device.shell(cmd, timeout)], so the timeout
    is taken for the stream flag. With a timeout of five seconds, against a
    daemon that answers [hi], the bridge returns the open connection where
    the blocking call returns the text and closes the connection. *)
Theorem async_shell_timeout_as_stream :
  (∀ ctl w, async_device_list ctl w = device_list (adb ctl) w)
  ∧ (∀ ctl serial w, async_get_device ctl serial w = device (adb ctl) serial None w)
  ∧ (∀ sh dt ctl d cmd timeout w,
       async_shell sh dt ctl d cmd timeout w = sh d cmd (of_timeout timeout) dt w)
  ∧ async_shell spec_shell PyNone controller0 device_AAA
      (CmdStr (lit "echo hi")) (Some five_seconds) (serving ∅ (lit "hi"))
    = (Return (Stream 0%nat),
       set_sockets (serving ∅ (lit "hi"))
         [mkSocket [lit "host:transport:AAA"; lit "shell,raw:echo hi"] false])
  ∧ blocking_shell spec_shell device_AAA
      (CmdStr (lit "echo hi")) (Some five_seconds) (serving ∅ (lit "hi"))
    = (Return (Output (lit "hi")),
       set_sockets (serving ∅ (lit "hi"))
         [mkSocket [lit "host:transport:AAA"; lit "shell,raw:echo hi"] true]).
Proof.
  repeat split; vm_compute; reflexivity.
Qed.

(** * Further properties *)

(** ** What a call of [list] that returns has read *)

Lemma list_line_some extended line info :
  list_line extended line = Return (Some info) →
  has_fields line
  ∧ info = (if extended then extended_info line else basic_info line)
  ∧ (extended = true → Forall (fun tok => COLON ∈ tok) (tag_tokens line)).
Proof.
  intros Hrun. destruct (decide (has_fields line)) as [Hf|Hf].
  - split; [done|]. destruct extended.
    + destruct (decide (Forall (fun tok => COLON ∈ tok) (tag_tokens line)))
        as [Hall|Hex].
      * rewrite list_line_extended in Hrun by done. by injection Hrun as <-.
      * apply not_Forall_Exists in Hex; [|intros ?; apply _].
        by rewrite list_line_malformed in Hrun.
    + rewrite list_line_basic in Hrun by done. by injection Hrun as <-.
  - by rewrite list_line_short in Hrun.
Qed.

Lemma list_line_none extended line :
  list_line extended line = Return None → ¬ has_fields line.
Proof.
  intros Hrun Hf. destruct extended.
  - destruct (decide (Forall (fun tok => COLON ∈ tok) (tag_tokens line)))
      as [Hall|Hex].
    + by rewrite list_line_extended in Hrun.
    + apply not_Forall_Exists in Hex; [|intros ?; apply _].
      by rewrite list_line_malformed in Hrun.
  - by rewrite list_line_basic in Hrun.
Qed.

(** The records the loop adds are those of the lines with both fields, one
    each, in order. *)
Lemma list_loop_records extended lines infos infos' :
  list_loop extended lines infos = Return infos' →
  ∃ new,
    infos' = infos ++ new
    ∧ Forall2 (fun line info => list_line extended line = Return (Some info))
              (filter has_fields lines) new.
Proof.
  revert infos. induction lines as [|line lines IH]; intros infos Hrun.
  - cbn in Hrun. injection Hrun as <-. exists []. by rewrite app_nil_r.
  - cbn [list_loop] in Hrun.
    destruct (list_line extended line) as [[info|]|e] eqn:Hline;
      cbn in Hrun; [| |done].
    + destruct (IH _ Hrun) as (new & -> & Hnew).
      exists (info :: new). rewrite <- app_assoc. split; [done|].
      rewrite filter_cons, decide_True
        by (by apply list_line_some in Hline as [? _]).
      by constructor.
    + destruct (IH _ Hrun) as (new & -> & Hnew).
      exists new. split; [done|].
      by rewrite filter_cons, decide_False by (by apply list_line_none in Hline).
Qed.

(** A call of [list] that returns has been served a block, has parsed it,
    and has left one closed socket behind. *)
Lemma list_returns self extended w infos w' :
  list_ self extended w = (Return infos, w') →
  ∃ output,
    serves w extended output
    ∧ list_loop extended (Py.splitlines output) [] = Return infos
    ∧ w' = after_session w [discovery_command extended].
Proof.
  rewrite list_run.
  destruct (daemon w (length (sockets w))) as [f|] eqn:Hd; [|done].
  destruct (f (discovery_command extended)) as [| | |[output|]] eqn:Hf;
    try done.
  intros [= Hloop <-]. exists output. split; [by exists f|]. by split.
Qed.

Lemma list_records self extended w infos w' :
  list_ self extended w = (Return infos, w') →
  ∃ output,
    serves w extended output
    ∧ Forall2 (fun line info => list_line extended line = Return (Some info))
              (filter has_fields (Py.splitlines output)) infos.
Proof.
  intros (output & Hs & Hloop & _)%list_returns.
  apply list_loop_records in Hloop as (new & -> & Hnew). by exists output.
Qed.

(** ** The records of a listing *)

Lemma before_no_sep sep s : sep ∉ before sep s.
Proof.
  induction s as [|c s IH]; cbn; [apply not_elem_of_nil|].
  destruct (N.eqb_spec c sep) as [->|Hne]; [apply not_elem_of_nil|].
  apply not_elem_of_cons. split; [congruence | done].
Qed.

Lemma Forall_before (P : N → Prop) sep s : Forall P s → Forall P (before sep s).
Proof.
  induction 1 as [|c s Hc Hs IH]; cbn; [constructor|].
  destruct (c =? sep); by constructor.
Qed.

Lemma Forall_after (P : N → Prop) sep s : Forall P s → Forall P (after sep s).
Proof.
  induction 1 as [|c s Hc Hs IH]; cbn; [constructor|].
  by destruct (c =? sep).
Qed.

Lemma split_token_elem line t : t ∈ Py.split line → token t.
Proof.
  intros Hin. pose proof (split_tokens line) as Htok.
  rewrite Forall_forall in Htok. by apply Htok.
Qed.

Lemma tag_tokens_elem line t : t ∈ tag_tokens line → token t.
Proof.
  unfold tag_tokens. intros Hin. apply (split_token_elem line).
  apply list_elem_of_lookup in Hin as [i Hi].
  rewrite lookup_drop in Hi. by apply list_elem_of_lookup_2 in Hi.
Qed.

(** X1. Whatever the flag, every record [list] returns has a serial and a
    state that are tokens of the listing: neither is empty and neither
    holds white space. *)
Theorem list_records_are_tokens (self : AdbClient) (extended : bool)
    (w w' : world) (infos : list AdbDeviceInfo) :
  list_ self extended w = (Return infos, w') →
  Forall (fun info => token (serial info) ∧ token (state info)) infos.
Proof.
  intros (output & _ & Hall)%list_records.
  induction Hall as [|line info lines infos Hline _ IH]; constructor; [|done].
  apply list_line_fields in Hline as (Hf & -> & ->).
  destruct (basic_info_parsed line Hf) as [H0 H1].
  split; apply (split_token_elem line); by eapply list_elem_of_lookup_2.
Qed.

Lemma list_records_are_tokens_witness :
  Forall (fun info => token (serial info) ∧ token (state info))
    [mkAdbDeviceInfo (lit "emulator-5554") (lit "device")
       {[ lit "product" := lit "sdk"; lit "model" := lit "Pixel";
          lit "transport_id" := lit "1" ]};
     mkAdbDeviceInfo (lit "*") (lit "daemon") ∅].
Proof.
  apply (list_records_are_tokens client0 true (serving ∅ listing_tags)
           (after_session (serving ∅ listing_tags) [lit "host:devices-l"])).
  vm_compute. reflexivity.
Defined.

(** X2. Every entry of the tags of a record of [list(extended=True)] comes
    from a tag token of its line: the token is [key:value], or
    [key:value:rest] for some [rest]; the key and the value hold no colon
    and no white space. *)
Theorem list_tags_entries (self : AdbClient) (w w' : world)
    (infos : list AdbDeviceInfo) :
  list_ self true w = (Return infos, w') →
  ∃ output,
    serves w true output
    ∧ Forall2 (fun line info =>
                 ∀ k v,
                   tags info !! k = Some v →
                   (COLON ∉ k) ∧ (COLON ∉ v)
                   ∧ Forall (fun c => Py.isspace c = false) (k ++ v)
                   ∧ ∃ tok,
                       tok ∈ tag_tokens line
                       ∧ (tok = k ++ COLON :: v
                          ∨ ∃ rest, tok = k ++ COLON :: v ++ COLON :: rest))
              (filter has_fields (Py.splitlines output)) infos.
Proof.
  intros (output & Hs & Hall)%list_records. exists output. split; [done|].
  eapply Forall2_impl; [exact Hall|]. clear. intros line info Hline k v Hkv.
  apply list_line_some in Hline as (_ & -> & Hcolon).
  specialize (Hcolon eq_refl). cbn [tags extended_info] in Hkv.
  apply tags_of_lookup in Hkv as (pre & tok & post & Heq & <- & <- & _).
  assert (Hin : tok ∈ tag_tokens line).
  { rewrite Heq. apply elem_of_app. right. by left. }
  rewrite Forall_forall in Hcolon. specialize (Hcolon _ Hin).
  destruct (tag_tokens_elem _ _ Hin) as [_ Hws].
  unfold tag_key, tag_value.
  split; [apply before_no_sep|]. split; [apply before_no_sep|].
  split.
  { apply Forall_app. split; [by apply Forall_before|].
    by apply Forall_before, Forall_after. }
  exists tok. split; [done|].
  destruct (decide (COLON ∈ after COLON tok)) as [Hmore|Hlast].
  - right. exists (after COLON (after COLON tok)).
    rewrite <- (before_after COLON (after COLON tok)) by done.
    by apply before_after.
  - left. rewrite (before_none COLON (after COLON tok)) by done.
    by apply before_after.
Qed.

Lemma list_tags_entries_witness :
  ∃ output,
    serves (serving ∅ listing_two_colons) true output
    ∧ Forall2 (fun line info =>
                 ∀ k v,
                   tags info !! k = Some v →
                   (COLON ∉ k) ∧ (COLON ∉ v)
                   ∧ Forall (fun c => Py.isspace c = false) (k ++ v)
                   ∧ ∃ tok,
                       tok ∈ tag_tokens line
                       ∧ (tok = k ++ COLON :: v
                          ∨ ∃ rest, tok = k ++ COLON :: v ++ COLON :: rest))
              (filter has_fields (Py.splitlines output))
              [mkAdbDeviceInfo (lit "AAA") (lit "device")
                 {[ lit "usb" := lit "1-2" ]}].
Proof.
  apply (list_tags_entries client0 (serving ∅ listing_two_colons)
           (after_session (serving ∅ listing_two_colons)
              [lit "host:devices-l"])).
  vm_compute. reflexivity.
Defined.

Lemma tags_of_empty toks : tags_of toks = ∅ ↔ toks = [].
Proof.
  split; [|by intros ->].
  destruct toks as [|tok toks _] using rev_ind; [done|].
  rewrite tags_of_snoc. intros Hins. by apply insert_non_empty in Hins.
Qed.

Lemma tags_of_size toks : (size (tags_of toks) ≤ length toks)%nat.
Proof.
  induction toks as [|tok toks IH] using rev_ind; [done|].
  rewrite tags_of_snoc, length_app, map_size_insert. cbn [length].
  destruct (tags_of toks !! tag_key tok); unfold id; lia.
Qed.

(** X3. The tags of a record of [list(extended=True)] have at most one entry
    per tag token of its line, and are empty exactly when the line has its
    two fields and nothing else. *)
Theorem list_tags_size (self : AdbClient) (w w' : world)
    (infos : list AdbDeviceInfo) :
  list_ self true w = (Return infos, w') →
  ∃ output,
    serves w true output
    ∧ Forall2 (fun line info =>
                 (size (tags info) + 2 ≤ length (Py.split line))%nat
                 ∧ (tags info = ∅ ↔ length (Py.split line) = 2%nat))
              (filter has_fields (Py.splitlines output)) infos.
Proof.
  intros (output & Hs & Hall)%list_records. exists output. split; [done|].
  eapply Forall2_impl; [exact Hall|]. clear. intros line info Hline.
  apply list_line_some in Hline as (Hf & -> & _).
  change (tags (extended_info line)) with (tags_of (tag_tokens line)).
  unfold has_fields, num_required_fields in Hf.
  pose proof (tags_of_size (tag_tokens line)) as Hsize.
  assert (Hlen : length (tag_tokens line) = (length (Py.split line) - 2)%nat)
    by (unfold tag_tokens, num_required_fields; by rewrite length_drop).
  split; [lia|]. rewrite tags_of_empty. split.
  - intros Hnil. rewrite Hnil in Hlen. cbn in Hlen. lia.
  - intros H2. apply length_zero_iff_nil. lia.
Qed.

Lemma list_tags_size_witness :
  ∃ output,
    serves (serving ∅ listing_tags) true output
    ∧ Forall2 (fun line info =>
                 (size (tags info) + 2 ≤ length (Py.split line))%nat
                 ∧ (tags info = ∅ ↔ length (Py.split line) = 2%nat))
              (filter has_fields (Py.splitlines output))
              [mkAdbDeviceInfo (lit "emulator-5554") (lit "device")
                 {[ lit "product" := lit "sdk"; lit "model" := lit "Pixel";
                    lit "transport_id" := lit "1" ]};
               mkAdbDeviceInfo (lit "*") (lit "daemon") ∅].
Proof.
  apply (list_tags_size client0 (serving ∅ listing_tags)
           (after_session (serving ∅ listing_tags) [lit "host:devices-l"])).
  vm_compute. reflexivity.
Defined.

(** ** The connected devices, by the block of the daemon *)

Lemma in_state_device_fields line : in_state_device line → has_fields line.
Proof.
  unfold in_state_device, has_fields, num_required_fields.
  intros Hst. apply lookup_lt_Some in Hst. lia.
Qed.

Lemma connected_lines self lines :
  connected self (basic_info <$> filter has_fields lines)
  = (fun line => mkAdbDevice self (Py.split line !! 0%nat) None)
      <$> filter in_state_device lines.
Proof.
  unfold connected. induction lines as [|line lines IH]; [done|].
  rewrite !filter_cons.
  destruct (decide (has_fields line)) as [Hf|Hf].
  - destruct (basic_info_parsed line Hf) as [H0 H1].
    cbn [fmap list_fmap]. rewrite filter_cons.
    destruct (decide (in_state_device line)) as [Hst|Hst].
    + unfold in_state_device in Hst.
      rewrite decide_True by congruence.
      cbn [fmap list_fmap]. rewrite IH. unfold handle_of at 1.
      by rewrite H0.
    + rewrite decide_False; [exact IH|].
      intros Heq. apply Hst. unfold in_state_device. by rewrite H1, Heq.
  - rewrite decide_False by (intros ?; by apply Hf, in_state_device_fields).
    exact IH.
Qed.

Lemma device_list_block self w output :
  serves w false output →
  device_list self w
  = (Return ((fun line => mkAdbDevice self (Py.split line !! 0%nat) None)
               <$> filter in_state_device (Py.splitlines output)),
     after_session w [lit "host:devices"]).
Proof.
  intros Hs. unfold device_list, iter_device, mbind, M_bind.
  rewrite (list_plain_run _ _ _ Hs). cbn.
  rewrite iter_device_loop_filter. by rewrite <- connected_lines.
Qed.

Lemma device_list_served self w ds w' :
  device_list self w = (Return ds, w') → ∃ output, serves w false output.
Proof.
  unfold device_list, iter_device, mbind, M_bind.
  destruct (list_ self false w) as [[infos|e] w1] eqn:Hl; [|done].
  intros _. apply list_returns in Hl as (output & Hs & _). by exists output.
Qed.

Lemma connected_by_serial self line :
  in_state_device line →
  by_serial self (mkAdbDevice self (Py.split line !! 0%nat) None).
Proof.
  intros Hst. apply in_state_device_fields in Hst.
  destruct (basic_info_parsed line Hst) as [H0 _].
  unfold by_serial. cbn. rewrite H0. split; [done|]. split; [|done].
  apply list_elem_of_lookup_2, split_token_elem in H0 as [Hne _].
  by destruct (serial (basic_info line)).
Qed.

(** X4. The handles [device_list] returns are, in the order of the block the
    daemon answered with, one per line whose second token is [device], bound
    to the first token of that line; each is made by the client that asked,
    names its device by a serial that is not empty, and has no transport
    id. *)
Theorem device_list_handles (self : AdbClient) (w w' : world)
    (ds : list AdbDevice) :
  device_list self w = (Return ds, w') →
  Forall (by_serial self) ds
  ∧ ∃ output,
      serves w false output
      ∧ dev_serial <$> ds
        = (fun line => Py.split line !! 0%nat)
            <$> filter in_state_device (Py.splitlines output).
Proof.
  intros Hrun. destruct (device_list_served _ _ _ _ Hrun) as [output Hs].
  rewrite (device_list_block _ _ _ Hs) in Hrun. injection Hrun as <- _.
  split.
  - apply Forall_fmap, Forall_forall. intros line Hin.
    apply list_elem_of_filter in Hin as [Hst _]. by apply connected_by_serial.
  - exists output. split; [done|]. by rewrite <- list_fmap_compose.
Qed.

Lemma device_list_handles_witness :
  Forall (by_serial client0)
    [mkAdbDevice client0 (Some (lit "AAA")) None;
     mkAdbDevice client0 (Some (lit "CCC")) None]
  ∧ ∃ output,
      serves (serving ∅ listing_three) false output
      ∧ dev_serial <$> [mkAdbDevice client0 (Some (lit "AAA")) None;
                        mkAdbDevice client0 (Some (lit "CCC")) None]
        = (fun line => Py.split line !! 0%nat)
            <$> filter in_state_device (Py.splitlines output).
Proof.
  apply (device_list_handles client0 (serving ∅ listing_three)
           (after_session (serving ∅ listing_three) [lit "host:devices"])).
  vm_compute. reflexivity.
Defined.

(** ** Resolution, end to end *)

(** X5. With no usable selector and no default serial, resolution counts
    only the lines of the block whose second token is [device]: none makes
    it raise the no-device error, even when the block lists devices in other
    states; exactly one makes it return the handle bound to the first token
    of that line, whatever else the block lists; more make it raise the
    ambiguous-device error. *)
Theorem device_counts_state_device (self : AdbClient) (ser : option str)
    (transport_id : option Z) (w : world) (output : str) :
  truthy_str ser = false →
  truthy_int transport_id = false →
  truthy_str (environ w !! ANDROID_SERIAL) = false →
  serves w false output →
  device self ser transport_id w
  = (match filter in_state_device (Py.splitlines output) with
     | [] => Raise NoDeviceError
     | [line] => Return (mkAdbDevice self (Py.split line !! 0%nat) None)
     | _ :: _ :: _ => Raise AmbiguousDeviceError
     end,
     after_session w [lit "host:devices"]).
Proof.
  intros Hs Ht He Hserves. rewrite device_fallthrough by done.
  unfold autodetect. rewrite (device_list_block _ _ _ Hserves).
  by destruct (filter in_state_device (Py.splitlines output))
    as [|line [|line' lines]].
Qed.

Lemma device_counts_state_device_witness :
  device client0 (Some []) (Some 0%Z) (serving ∅ listing_mixed)
  = (Return (mkAdbDevice client0 (Some (lit "BBB")) None),
     after_session (serving ∅ listing_mixed) [lit "host:devices"])
  ∧ device client0 None None (serving ∅ listing_offline)
    = (Raise NoDeviceError,
       after_session (serving ∅ listing_offline) [lit "host:devices"]).
Proof.
  split.
  - apply (device_counts_state_device client0 (Some []) (Some 0%Z)
             (serving ∅ listing_mixed) listing_mixed);
      [reflexivity | reflexivity | vm_compute; reflexivity
      | eexists; split; reflexivity].
  - apply (device_counts_state_device client0 None None
             (serving ∅ listing_offline) listing_offline);
      [reflexivity | reflexivity | vm_compute; reflexivity
      | eexists; split; reflexivity].
Defined.

Lemma device_list_by_serial self w ds w' :
  device_list self w = (Return ds, w') → Forall (by_serial self) ds.
Proof.
  intros Hrun. destruct (device_list_served _ _ _ _ Hrun) as [output Hs].
  rewrite (device_list_block _ _ _ Hs) in Hrun. injection Hrun as <- _.
  apply Forall_fmap, Forall_forall. intros line Hin.
  apply list_elem_of_filter in Hin as [Hst _]. by apply connected_by_serial.
Qed.

Lemma device_handle self ser transport_id w d w' :
  device self ser transport_id w = (Return d, w') →
  by_serial self d
  ∨ (by_transport_id self d ∧ dev_transport_id d = transport_id).
Proof.
  unfold device. destruct (truthy_str ser) eqn:Hs.
  { intros [= <- _]. left. by repeat split. }
  destruct (truthy_int transport_id) eqn:Ht.
  { intros [= <- _]. right. by repeat split. }
  unfold mbind, M_bind, os_environ_get.
  destruct (truthy_str (environ w !! lit "ANDROID_SERIAL")) eqn:He; cbn [negb].
  { intros [= <- _]. left. by repeat split. }
  destruct (device_list self w) as [[[|d0 [|d1 ds]]|e] w1] eqn:Hl; try done.
  cbn. intros [= <- _]. left.
  apply device_list_by_serial in Hl. by inversion Hl.
Qed.

(** X6. A handle that resolution returns is made by the client that
    resolved it and names its device by exactly one selector: a serial that
    is not empty and no transport id, or -- only when the serial given is
    unusable, and then it is the transport id given -- a transport id that
    is not zero and no serial. *)
Theorem device_one_selector_set (self : AdbClient) (ser : option str)
    (transport_id : option Z) (w w' : world) (d : AdbDevice) :
  device self ser transport_id w = (Return d, w') →
  by_serial self d
  ∨ (by_transport_id self d
     ∧ truthy_str ser = false
     ∧ dev_transport_id d = transport_id).
Proof.
  intros Hrun. destruct (device_handle _ _ _ _ _ _ Hrun) as [?|[Hd Ht]];
    [by left|].
  right. split; [done|]. split; [|done].
  destruct (truthy_str ser) eqn:Hs; [|done].
  unfold device in Hrun. rewrite Hs in Hrun. injection Hrun as <- _.
  destruct Hd as (_ & Hnone & _). cbn in Hnone. by rewrite Hnone in Hs.
Qed.

Lemma device_one_selector_set_witness :
  by_serial client0 (mkAdbDevice client0 (Some (lit "BBB")) None)
  ∨ (by_transport_id client0 (mkAdbDevice client0 (Some (lit "BBB")) None)
     ∧ truthy_str None = false
     ∧ dev_transport_id (mkAdbDevice client0 (Some (lit "BBB")) None) = None).
Proof.
  apply (device_one_selector_set client0 None None (serving ∅ listing_mixed)
           (after_session (serving ∅ listing_mixed) [lit "host:devices"])).
  vm_compute. reflexivity.
Defined.

(** X7. [AsyncAdbController.get_device] passes the serial only: every handle
    it returns is made by the client of the controller and names its device
    by a serial that is not empty, never by a transport id. *)
Theorem async_get_device_by_serial (ctl : AsyncAdbController)
    (ser : option str) (w w' : world) (d : AdbDevice) :
  async_get_device ctl ser w = (Return d, w') → by_serial (adb ctl) d.
Proof.
  unfold async_get_device, to_thread. intros Hrun.
  destruct (device_handle _ _ _ _ _ _ Hrun) as [?|[(_ & _ & Ht) Hnone]];
    [done|].
  by rewrite Hnone in Ht.
Qed.

Lemma async_get_device_by_serial_witness :
  by_serial (adb controller0) (mkAdbDevice client0 (Some (lit "BBB")) None).
Proof.
  apply (async_get_device_by_serial controller0 (Some [])
           (serving ∅ listing_mixed)
           (after_session (serving ∅ listing_mixed) [lit "host:devices"])).
  vm_compute. reflexivity.
Defined.

(** X8. Parsing a plain listing cannot fail, and the indexing of the code is
    guarded: [list()], [device_list()] and [device(...)] never raise
    [IndexError], whatever the daemon answers. *)
Theorem no_index_error (self : AdbClient) (ser : option str)
    (transport_id : option Z) (w : world) :
  fst (list_ self false w) ≠ Raise IndexError
  ∧ fst (device_list self w) ≠ Raise IndexError
  ∧ fst (device self ser transport_id w) ≠ Raise IndexError.
Proof.
  assert (Hlist : fst (list_ self false w) ≠ Raise IndexError).
  { rewrite list_run.
    destruct (daemon w (length (sockets w))) as [f|]; [|done].
    destruct (f (discovery_command false)) as [| | |[out|]]; try done.
    cbn [fst]. by rewrite list_loop_plain. }
  assert (Hdl : fst (device_list self w) ≠ Raise IndexError).
  { unfold device_list, iter_device, mbind, M_bind.
    by destruct (list_ self false w) as [[infos|[]] w1]. }
  split; [done|]. split; [done|].
  unfold device. destruct (truthy_str ser); [done|].
  destruct (truthy_int transport_id); [done|].
  unfold mbind, M_bind, os_environ_get.
  destruct (negb (truthy_str (environ w !! lit "ANDROID_SERIAL"))); [|done].
  by destruct (device_list self w) as [[[|d0 [|d1 ds]]|[]] w1].
Qed.

(** ** Traffic with the daemon *)

(** X9. A call of [list] leaves the environment as it is, opens at most one
    socket and closes it, and writes on it nothing but the discovery command
    of its flag, at most once: [host:devices-l] when [extended],
    [host:devices] otherwise. *)
Theorem list_traffic (self : AdbClient) (extended : bool) (w : world) :
  one_session_at_most w (snd (list_ self extended w))
    (if extended then lit "host:devices-l" else lit "host:devices").
Proof.
  unfold one_session_at_most. rewrite list_run.
  change (if extended then lit "host:devices-l" else lit "host:devices")
    with (discovery_command extended).
  destruct (daemon w (length (sockets w))) as [f|]; [|by auto].
  destruct (f (discovery_command extended)) as [| | |[out|]];
    cbn; by auto.
Qed.

(** X10. Resolution leaves the environment as it is, opens at most one
    socket and closes it, and writes on it nothing but the plain discovery
    command [host:devices], at most once; it never asks for the extended
    listing. *)
Theorem device_traffic (self : AdbClient) (ser : option str)
    (transport_id : option Z) (w : world) :
  one_session_at_most w (snd (device self ser transport_id w))
    (lit "host:devices").
Proof.
  pose proof (list_traffic self false w) as Hlist. cbn [negb] in Hlist.
  assert (Hdl : snd (device_list self w) = snd (list_ self false w)).
  { unfold device_list, iter_device, mbind, M_bind.
    by destruct (list_ self false w) as [[infos|e] w1]. }
  assert (Hsame : one_session_at_most w w (lit "host:devices"))
    by (unfold one_session_at_most; auto).
  unfold device. destruct (truthy_str ser); [done|].
  destruct (truthy_int transport_id); [done|].
  unfold mbind, M_bind, os_environ_get.
  destruct (negb (truthy_str (environ w !! lit "ANDROID_SERIAL"))); [|done].
  rewrite <- Hdl in Hlist.
  by destruct (device_list self w) as [[[|d0 [|d1 ds]]|e] w1].
Qed.

(** ** The deprecated shim, end to end *)

(** X11. With an unusable serial and no default serial, the deprecated
    [AdbClient.shell] first makes the discovery; when no line of the block
    has [device] as second token, or more than one has, it raises the error
    of the resolution and runs no shell call; when exactly one has, it runs
    the shell call of the handle bound to the first token of that line, with
    the command, the stream flag and the timeout it was given, after the
    discovery. *)
Theorem shell_shim_autodetects
    (AdbDevice_shell : AdbDevice → cmdargs → pyval → pyval → M shell_result)
    (self : AdbClient) (ser : option str) (command : cmdargs)
    (stream : bool) (timeout : option (Z * positive)) (w : world)
    (output : str) :
  truthy_str ser = false →
  truthy_str (environ w !! ANDROID_SERIAL) = false →
  serves w false output →
  shell AdbDevice_shell self ser command stream timeout w
  = match filter in_state_device (Py.splitlines output) with
    | [] => (Raise NoDeviceError, after_session w [lit "host:devices"])
    | [line] =>
        AdbDevice_shell (mkAdbDevice self (Py.split line !! 0%nat) None)
          command (PyBool stream) (of_timeout timeout)
          (after_session w [lit "host:devices"])
    | _ :: _ :: _ =>
        (Raise AmbiguousDeviceError, after_session w [lit "host:devices"])
    end.
Proof.
  intros Hs He Hserves. unfold shell, mbind, M_bind.
  rewrite device_fallthrough by done.
  unfold autodetect. rewrite (device_list_block _ _ _ Hserves).
  by destruct (filter in_state_device (Py.splitlines output))
    as [|line [|line' lines]].
Qed.

Lemma shell_shim_autodetects_witness :
  shell spec_shell client0 (Some []) (CmdStr (lit "id")) false None
    (serving ∅ listing_offline)
  = (Raise NoDeviceError,
     after_session (serving ∅ listing_offline) [lit "host:devices"]).
Proof.
  apply (shell_shim_autodetects spec_shell client0 (Some [])
           (CmdStr (lit "id")) false None (serving ∅ listing_offline)
           listing_offline);
    [reflexivity | vm_compute; reflexivity | eexists; split; reflexivity].
Defined.

(** ** White space and line ends *)

Lemma split_skip_blank b s : blank b → Py.split (b ++ s) = Py.split s.
Proof.
  induction 1 as [|c b Hc Hb IH]; [done|].
  cbn [app Py.split]. by rewrite Hc.
Qed.

Lemma split_all_blank b : blank b → Py.split b = [].
Proof. intros Hb. rewrite <- (app_nil_r b). by rewrite split_skip_blank. Qed.

Lemma split_token_alone t : token t → Py.split t = [t].
Proof.
  intros [Hne Ht]. induction Ht as [|a t Ha Ht IH]; [done|].
  cbn [Py.split]. rewrite Ha. destruct t as [|b t']; [done|].
  inversion Ht as [|? ? Hb _]; subst. rewrite Hb.
  by rewrite IH.
Qed.

Lemma split_token_then t s :
  token t → blank (take 1 s) → Py.split (t ++ s) = t :: Py.split s.
Proof.
  intros Ht Hs. destruct s as [|c s].
  - rewrite app_nil_r. by apply split_token_alone.
  - cbn in Hs. inversion Hs as [|? ? Hc _]; subst.
    destruct Ht as [Hne Ht]. rewrite split_token_first by done.
    cbn [Py.split]. by rewrite Hc.
Qed.

Lemma spaced_cons g t gapped : spaced ((g, t) :: gapped) = (g ++ t) ++ spaced gapped.
Proof. done. Qed.

Lemma split_spaced lead t0 gapped trail :
  blank lead → token t0 →
  Forall (fun gt => gt.1 ≠ [] ∧ blank gt.1 ∧ token gt.2) gapped →
  blank trail →
  Py.split (lead ++ t0 ++ spaced gapped ++ trail) = t0 :: (snd <$> gapped).
Proof.
  intros Hlead Ht0 Hgapped Htrail. rewrite split_skip_blank by done. clear Hlead.
  revert t0 Ht0. induction Hgapped as [|[g t] gapped (Hne & Hg & Ht) _ IH];
    intros t0 Ht0.
  - cbn [spaced fmap list_fmap mjoin list_join app].
    rewrite split_token_then; [by rewrite split_all_blank |done|].
    destruct Htrail; by repeat constructor.
  - rewrite spaced_cons. cbn [fst snd] in *.
    rewrite split_token_then; [|done|].
    + rewrite <- !app_assoc. rewrite split_skip_blank by done.
      rewrite (IH t Ht). done.
    + destruct g as [|c g]; [done|]. inversion Hg; subst.
      by repeat constructor.
Qed.

(** X12. White space around and between the tokens of a line does not count:
    a line made of a serial, a state and tag tokens, in any white space, one
    character at least between two tokens, gives the record of that serial
    and state; its tags are empty without [extended], and with [extended]
    they are those of the tag tokens, when each has a colon. *)
Theorem list_line_spaced (lead t0 g1 t1 : str) (tagged : list (str * str))
    (trail : str) :
  blank lead → token t0 →
  Forall (fun gt => gt.1 ≠ [] ∧ blank gt.1 ∧ token gt.2) ((g1, t1) :: tagged) →
  blank trail →
  list_line false (lead ++ t0 ++ spaced ((g1, t1) :: tagged) ++ trail)
  = Return (Some (mkAdbDeviceInfo t0 t1 ∅))
  ∧ (Forall (fun gt => COLON ∈ gt.2) tagged →
     list_line true (lead ++ t0 ++ spaced ((g1, t1) :: tagged) ++ trail)
     = Return (Some (mkAdbDeviceInfo t0 t1 (tags_of (snd <$> tagged))))).
Proof.
  intros Hlead Ht0 Hgapped Htrail.
  pose proof (split_spaced lead t0 _ trail Hlead Ht0 Hgapped Htrail) as Hsplit.
  cbn [fmap list_fmap snd] in Hsplit.
  assert (Hf : has_fields (lead ++ t0 ++ spaced ((g1, t1) :: tagged) ++ trail)).
  { unfold has_fields, num_required_fields. rewrite Hsplit. cbn. lia. }
  split.
  - rewrite list_line_basic by done. unfold basic_info. by rewrite Hsplit.
  - intros Hcolon. rewrite list_line_extended.
    + unfold extended_info, tag_tokens, num_required_fields.
      by rewrite Hsplit.
    + done.
    + unfold tag_tokens, num_required_fields. rewrite Hsplit. cbn [drop].
      by apply Forall_fmap.
Qed.

Lemma list_line_spaced_witness :
  list_line false
    (lit " " ++ lit "AAA" ++ spaced [([TAB], lit "device");
                                     (lit "  ", lit "usb:1-2")] ++ lit " ")
  = Return (Some (mkAdbDeviceInfo (lit "AAA") (lit "device") ∅))
  ∧ (Forall (fun gt => COLON ∈ gt.2) [(lit "  ", lit "usb:1-2")] →
     list_line true
       (lit " " ++ lit "AAA" ++ spaced [([TAB], lit "device");
                                        (lit "  ", lit "usb:1-2")] ++ lit " ")
     = Return (Some (mkAdbDeviceInfo (lit "AAA") (lit "device")
                       (tags_of (snd <$> [(lit "  ", lit "usb:1-2")]))))).
Proof.
  apply (list_line_spaced (lit " ") (lit "AAA") [TAB] (lit "device")
           [(lit "  ", lit "usb:1-2")] (lit " "));
    apply (bool_decide_unpack _); vm_compute; exact I.
Defined.




